(** * Clipboard watcher: a shallow embedding of [tools/todo_it_clipboard.py]

    The development follows the source file top-down:
    - [PyStr]     Python [str] values and the built-in string methods the
                  watcher calls ([strip], [splitlines], [lower]) together
                  with the compiled pattern [PREFIX_RE];
    - [Classifier] [parse_clipboard_text];
    - [Auth]      [get_oauth_access_token] over an explicit world (files,
                  printed lines, external calls);
    - [Delivery]  [post_payload];
    - [Watch]     the polling loop of [main]. *)

From Stdlib Require Import ZArith NArith Ascii String Bool Lia.
From stdpp Require Import base option list gmap.

Local Open Scope N_scope.

(** ** Python strings *)

(** A [str] is a sequence of Unicode code points. *)
Abbreviation str := (list N).

Module PyStr.

(** String literals of the source, written as Rocq strings (ASCII only). *)
Definition py (s : string) : str := N_of_ascii <$> list_ascii_of_string s.

(** Truth value of a string in a condition: non-empty. *)
Definition truthy (s : str) : bool :=
  match s with
  | [] => false
  | _ :: _ => true
  end.

(** [str.isspace] on one character: the code points CPython lists in
    [_PyUnicode_IsWhitespace]. *)
Definition isspace (c : N) : bool :=
  ((0x09 <=? c) && (c <=? 0x0D)) || ((0x1C <=? c) && (c <=? 0x20))
  || (c =? 0x85) || (c =? 0xA0) || (c =? 0x1680)
  || ((0x2000 <=? c) && (c <=? 0x200A))
  || (c =? 0x2028) || (c =? 0x2029) || (c =? 0x202F) || (c =? 0x205F)
  || (c =? 0x3000).

(** Line boundaries recognised by [str.splitlines]: LF, VT, FF, CR, the
    separators FS GS RS, NEL, LINE SEPARATOR and PARAGRAPH SEPARATOR. *)
Definition is_linebreak (c : N) : bool :=
  ((0x0A <=? c) && (c <=? 0x0D)) || ((0x1C <=? c) && (c <=? 0x1E))
  || (c =? 0x85) || (c =? 0x2028) || (c =? 0x2029).

Definition CR : N := 0x0D.
Definition LF : N := 0x0A.

(** A whitespace-only (possibly empty) string. *)
Definition blank (s : str) : bool := forallb isspace s.

(** [str.lstrip()], [str.rstrip()], [str.strip()] without argument. *)
Fixpoint lstrip (s : str) : str :=
  match s with
  | [] => []
  | c :: s' => if isspace c then lstrip s' else s
  end.

Definition rstrip (s : str) : str := rev (lstrip (rev s)).

Definition strip (s : str) : str := rstrip (lstrip s).

(** What is left to scan after a line boundary [c] followed by [s]: a CR
    directly followed by LF is one boundary, so that LF is skipped. *)
Definition after_break (c : N) (s : str) : str :=
  match s with
  | d :: s' => if (c =? CR) && (d =? LF) then s' else s
  | [] => []
  end.

(** [str.splitlines()] (keepends false): [cur] is the line being scanned.
    At a boundary the line is emitted and scanning resumes after it (see
    [after_break]; the inner match spells it out for the termination
    check).  A final line without terminator is kept when it is
    non-empty. *)
Fixpoint splitlines_from (cur : str) (s : str) : list str :=
  match s with
  | [] => if truthy cur then [cur] else []
  | c :: s' =>
      if is_linebreak c then
        cur :: match s' with
               | d :: s'' =>
                   if (c =? CR) && (d =? LF) then splitlines_from [] s''
                   else splitlines_from [] s'
               | [] => []
               end
      else splitlines_from (cur ++ [c]) s'
  end.

Definition splitlines (s : str) : list str := splitlines_from [] s.

(** [str.lower()], as far as the watcher needs it: it is only applied to
    group 1 of [PREFIX_RE], whose characters are in [A-Za-z0-9]; on these
    it maps A-Z to a-z and keeps the rest. *)
Definition lower_char (c : N) : N :=
  if (0x41 <=? c) && (c <=? 0x5A) then c + 0x20 else c.

Definition lower (s : str) : str := lower_char <$> s.

(** The character class [[A-Za-z0-9]]. *)
Definition is_alnum (c : N) : bool :=
  ((0x41 <=? c) && (c <=? 0x5A)) || ((0x61 <=? c) && (c <=? 0x7A))
  || ((0x30 <=? c) && (c <=? 0x39)).

Definition COLON : N := 0x3A.

(** Longest prefix whose characters satisfy [p], and the remainder. *)
Fixpoint span (p : N -> bool) (s : str) : str * str :=
  match s with
  | [] => ([], [])
  | c :: s' =>
      if p c then let '(a, b) := span p s' in (c :: a, b) else ([], s)
  end.

(** [PREFIX_RE.match(line)] for the compiled pattern: start anchor, group 1
    of one or more characters of [[A-Za-z0-9]], a colon, group 2 of any
    number of non-LF characters, end anchor.  Returns groups 1 and 2.
    Group 1 is the maximal alphanumeric prefix (the next character must be
    the colon, which is not alphanumeric, so backtracking cannot help).  The
    dot matches anything but LF, and the end anchor matches at the end of
    the string or just before a final LF. *)
Definition PREFIX_RE_match (line : str) : option (str * str) :=
  let '(token, after) := span is_alnum line in
  match token, after with
  | _ :: _, c :: rest =>
      if c =? COLON then
        let '(body, tail) := span (fun d => negb (d =? LF)) rest in
        match tail with
        | [] => Some (token, body)
        | [_] => Some (token, body)
        | _ => None
        end
      else None
  | _, _ => None
  end.

End PyStr.

(** ** The line classifier *)

Module Classifier.
Import PyStr.

(** The dict returned by [parse_clipboard_text], with its keys type,
    section and text. *)
Record entry := Entry { type_ : str; section : str; text : str }.

(** The [for candidate in raw_text.splitlines()] loop: the stripped form of
    the first candidate whose stripped form is non-empty, the empty string
    if there is none. *)
Fixpoint first_nonempty_line (candidates : list str) : str :=
  match candidates with
  | [] => []
  | candidate :: rest =>
      if truthy (strip candidate) then strip candidate
      else first_nonempty_line rest
  end.

(** The line selected when the scan resumes in [s] with [cur] pending. *)
Definition sel (cur s : str) : str :=
  first_nonempty_line (splitlines_from cur s).

(** Lines 127-132: the tag after the unknown-tag policy, [None] for the
    early [return None]. *)
Definition resolve_prefix (prefix unknown_behavior : str)
    (tag_map : gmap str str) : option str :=
  match tag_map !! prefix with
  | Some _ => Some prefix
  | None =>
      if bool_decide (unknown_behavior = py "map_to_misc")
      then Some (py "misc")
      else None
  end.

(** Everything after the first-line selection (lines 115-138). *)
Definition classify_line (line unknown_behavior : str)
    (tag_map : gmap str str) : option entry :=
  if negb (truthy line) then None
  else
    match PREFIX_RE_match line with
    | None => None
    | Some (prefix_raw, group2) =>
        let text := strip group2 in
        if negb (truthy text) then None
        else
          match resolve_prefix (lower prefix_raw) unknown_behavior tag_map with
          | None => None
          | Some prefix =>
              let section := strip (default [] (tag_map !! prefix)) in
              if negb (truthy section) then None
              else Some (Entry prefix section text)
          end
    end.

(** [parse_clipboard_text(raw_text, unknown_behavior, tag_map)]; [None] for
    [raw_text] is Python's [None]. *)
Definition parse_clipboard_text (raw_text : option str)
    (unknown_behavior : str) (tag_map : gmap str str) : option entry :=
  match raw_text with
  | None => None
  | Some raw =>
      classify_line (first_nonempty_line (splitlines raw))
        unknown_behavior tag_map
  end.

(** [DEFAULT_TAG_MAP]. *)
Definition DEFAULT_TAG_MAP : gmap str str :=
  <[py "todo" := py "TODO"]>
    (<[py "fu" := py "Follow Up"]>
      (<[py "misc" := py "Miscellany"]> ∅)).

End Classifier.

(** ** Effects: exceptions, files, printed lines, external calls *)

Module Effects.

(** Exceptions (all subclasses of [Exception]).  The two the watcher raises
    itself carry their message; [HTTPError] carries the status code and the
    body as decoded by [exc.read().decode("utf-8", errors="replace")]. *)
Inductive exn :=
| RuntimeError (msg : str)
| FileNotFoundError (msg : str)
| HTTPError (code : Z) (detail : str)
| URLError (reason : str)
| OtherException (name msg : str).

Inductive result (A : Type) :=
| Ok (a : A)
| Raise (e : exn).
Arguments Ok {A} a.
Arguments Raise {A} e.

(** [google.oauth2.credentials.Credentials], as far as the watcher reads
    it: [token], the [expired] property at the time of the call and
    [refresh_token]. *)
Record Credentials := MkCredentials {
  token : option str;
  expired : bool;
  refresh_token : option str
}.

(** The [valid] property: [self.token is not None and not self.expired]. *)
Definition valid (c : Credentials) : bool :=
  match token c with
  | Some _ => negb (expired c)
  | None => false
  end.

(** Truth value of an optional string ([None] and the empty string are
    false). *)
Definition truthy_opt (o : option str) : bool :=
  match o with
  | Some s => PyStr.truthy s
  | None => false
  end.

(** The request payload built in [main]. *)
Record Payload := MkPayload {
  p_type : str; p_section : str; p_text : str; p_who : str
}.

(** [urllib.request.Request(web_app_url, data=body, headers=headers,
    method="POST")]; [data] is the payload that [json.dumps] serialises. *)
Record Request := MkRequest {
  url : str;
  data : Payload;
  headers : list (str * str);
  method : str
}.

(** What [urlopen] hands back inside the [with] block: the status and the
    body as decoded by [resp.read().decode("utf-8", errors="replace")]. *)
Record Response := MkResponse { status : Z; body : str }.

(** One constructor per [print] call of the source, with the interpolated
    values. *)
Inductive log_line :=
| LogFatal (exc : exn)
| LogWatching
| LogTargetDoc (doc_url : str)
| LogAuthMode
| LogClientSecrets (path : str)
| LogAuthStarting
| LogAuthFailure (exc : exn)
| LogServerResponse (status : Z) (text : str)
| LogHTTPError (code : Z) (detail : str)
| LogNetworkIssue (exc : exn)
| LogUnexpectedFailure (exc : exn)
| LogClipboardReadFailed (exc : exn)
| LogSent (type_ text : str).

(** Observable actions, in the order they happen.  [Classify] marks a call
    of [parse_clipboard_text] by the loop (the call itself is pure). *)
Inductive event :=
| Print (l : log_line)
| Sleep
| Classify (raw : str)
| Refresh (c : Credentials)
| RunLocalServer (client_config : str)
| WriteText (path content : str)
| UrlOpen (req : Request).

(** The world a call runs in: the files (path to text) and the trace. *)
Record world := World {
  files : gmap str str;
  out : list event
}.

(** The answers of the external collaborators during one call: whether the
    google-auth imports succeed, the credential (de)serialisation, the
    identity provider (refresh and interactive flow) and the endpoint. *)
Record external := External {
  oauth_deps : bool;
  from_authorized_user_file : str -> list str -> result Credentials;
  to_json : Credentials -> str;
  refresh : Credentials -> result Credentials;
  from_client_secrets_file : str -> list str -> result str;
  run_local_server : str -> result Credentials;
  urlopen : Request -> result Response
}.

(** Computations that read and change the world and may raise. *)
Definition M (A : Type) : Type := world -> result A * world.

Definition ret {A} (a : A) : M A := fun w => (Ok a, w).

Definition raise {A} (e : exn) : M A := fun w => (Raise e, w).

Definition lift {A} (r : result A) : M A := fun w => (r, w).

Definition bind {A B} (m : M A) (k : A -> M B) : M B :=
  fun w =>
    match m w with
    | (Ok a, w') => k a w'
    | (Raise e, w') => (Raise e, w')
    end.

(** [try: m  except Exception as exc: handler exc]. *)
Definition try_except {A} (m : M A) (handler : exn -> M A) : M A :=
  fun w =>
    match m w with
    | (Ok a, w') => (Ok a, w')
    | (Raise e, w') => handler e w'
    end.

Definition emit (e : event) : M unit :=
  fun w => (Ok tt, World (files w) (out w ++ [e])).

Definition print (l : log_line) : M unit := emit (Print l).

Definition read_files : M (gmap str str) := fun w => (Ok (files w), w).

(** [path.write_text(content)]; creating the parent directory has no
    effect on the file map. *)
Definition write_text (path content : str) : M unit :=
  fun w => (Ok tt, World (<[path := content]> (files w))
                         (out w ++ [WriteText path content])).

Declare Scope eff_scope.
Delimit Scope eff_scope with eff.
Notation "'let*' x ':=' m 'in' k" := (bind m (fun x => k))
  (at level 10, x name, m at level 100, k at level 200) : eff_scope.
Notation "m ';;' k" := (bind m (fun _ => k))
  (at level 100, k at level 200, right associativity) : eff_scope.

End Effects.

(** ** The credential manager *)

Module Auth.
Import PyStr Effects.
Local Open Scope eff_scope.

(** [config["oauth"]] after [load_config]. *)
Record oauth_config := MkOAuth {
  client_secrets_file : str;
  token_file : str;
  scopes : list str
}.

Definition MSG_MISSING_DEPS : str :=
  py "Missing OAuth dependencies. Run: pip install -r requirements.txt".
Definition MSG_NO_SECRETS : str := py "OAuth client secrets file not found: ".
Definition MSG_NO_TOKEN : str := py "Could not obtain OAuth access token".

(** Lines 155-157: [creds = None], replaced by the cached credential when
    the token file exists. *)
Definition load_cached (ext : external) (cfg : oauth_config)
    : M (option Credentials) :=
  (let* fs := read_files in
   match fs !! token_file cfg with
   | Some content =>
       let* c := lift (from_authorized_user_file ext content (scopes cfg)) in
       ret (Some c)
   | None => ret None
   end)%eff.

(** Lines 163-171: the interactive authorization. *)
Definition interactive_login (ext : external) (cfg : oauth_config)
    : M Credentials :=
  (let* fs := read_files in
   match fs !! client_secrets_file cfg with
   | None => raise (FileNotFoundError (MSG_NO_SECRETS ++ client_secrets_file cfg))
   | Some secrets =>
       let* flow := lift (from_client_secrets_file ext secrets (scopes cfg)) in
       print LogAuthStarting;;
       emit (RunLocalServer flow);;
       lift (run_local_server ext flow)
   end)%eff.

(** Lines 159-174: refresh or log in again, then write the token file. *)
Definition renew (ext : external) (cfg : oauth_config)
    (creds : option Credentials) : M (option Credentials) :=
  (let* creds' :=
     match creds with
     | Some c =>
         if expired c && truthy_opt (refresh_token c)
         then (emit (Refresh c);; lift (refresh ext c))
         else interactive_login ext cfg
     | None => interactive_login ext cfg
     end in
   write_text (token_file cfg) (to_json ext creds');;
   ret (Some creds'))%eff.

(** [get_oauth_access_token(oauth_cfg)]. *)
Definition get_oauth_access_token (ext : external) (cfg : oauth_config)
    : M str :=
  (if negb (oauth_deps ext) then raise (RuntimeError MSG_MISSING_DEPS)
   else
     let* creds := load_cached ext cfg in
     let* creds :=
       match creds with
       | Some c => if negb (valid c) then renew ext cfg creds else ret creds
       | None => renew ext cfg creds
       end in
     match creds with
     | Some c =>
         match token c with
         | Some tok => if truthy tok then ret tok
                       else raise (RuntimeError MSG_NO_TOKEN)
         | None => raise (RuntimeError MSG_NO_TOKEN)
         end
     | None => raise (RuntimeError MSG_NO_TOKEN)
     end)%eff.

End Auth.

(** ** The delivery client *)

Module Delivery.
Import PyStr Effects Auth.
Local Open Scope eff_scope.

(** The fields of the loaded configuration that the loop reads (the sleep
    duration [poll_interval] is not represented: a pause is the event
    [Sleep]). *)
Record config := MkConfig {
  google_doc_url : str;
  web_app_url : str;
  who : str;
  unknown_prefix_behavior : str;
  auth_mode : str;
  oauth : oauth_config;
  tag_map : gmap str str
}.

Definition CONTENT_TYPE : str * str :=
  (py "Content-Type", py "application/json").

Definition authorization (tok : str) : str * str :=
  (py "Authorization", py "Bearer " ++ tok).

(** The test of line 204. *)
Definition acknowledged (status : Z) (text : str) : bool :=
  (200 <=? status)%Z && (status <? 300)%Z && bool_decide (text = py "OK").

(** Lines 185-191: the headers to send, or [inr false] for the early
    [return False]. *)
Definition prepare_headers (ext : external) (cfg : config)
    : M (list (str * str) + bool) :=
  (if bool_decide (auth_mode cfg = py "oauth_user") then
     try_except
       (let* tok := get_oauth_access_token ext (oauth cfg) in
        ret (inl [CONTENT_TYPE; authorization tok]))
       (fun exc => print (LogAuthFailure exc);; ret (inr false))
   else ret (inl [CONTENT_TYPE]))%eff.

(** Lines 200-216: send and interpret the answer.  An exception raised
    while the response is read inside the [with] block is handled by the
    same [except] clauses, so it counts as raised by [urlopen]; reading the
    body of an [HTTPError] (line 209) is taken to succeed. *)
Definition send (ext : external) (req : Request) : M bool :=
  (emit (UrlOpen req);;
   match urlopen ext req with
   | Ok resp =>
       let status := status resp in
       let text := strip (body resp) in
       if acknowledged status text then ret true
       else (print (LogServerResponse status text);; ret false)
   | Raise (HTTPError code detail) =>
       print (LogHTTPError code detail);; ret false
   | Raise (URLError reason) =>
       print (LogNetworkIssue (URLError reason));; ret false
   | Raise exc =>
       print (LogUnexpectedFailure exc);; ret false
   end)%eff.

(** [post_payload(web_app_url, payload, config)]. *)
Definition post_payload (ext : external) (web_app_url : str)
    (payload : Payload) (cfg : config) : M bool :=
  (let* prepared := prepare_headers ext cfg in
   match prepared with
   | inr early => ret early
   | inl headers =>
       send ext (MkRequest web_app_url payload headers (py "POST"))
   end)%eff.

End Delivery.

(** ** The watch loop *)

Module Watch.
Import PyStr Classifier Effects Auth Delivery.
Local Open Scope eff_scope.

(** One poll: what [pyperclip.paste()] does and how the outside world
    answers during this iteration. *)
Record tick := MkTick {
  paste : result str;
  ext : external
}.

(** Lines 244-258: classify the new content and deliver a match. *)
Definition process (cfg : config) (ext : external) (current : str) : M unit :=
  (emit (Classify current);;
   match parse_clipboard_text (Some current) (unknown_prefix_behavior cfg)
           (tag_map cfg) with
   | Some parsed =>
       let payload :=
         MkPayload (type_ parsed) (section parsed) (text parsed) (who cfg) in
       let* ok := post_payload ext (web_app_url cfg) payload cfg in
       if ok then print (LogSent (p_type payload) (p_text payload))
       else ret tt
   | None => ret tt
   end)%eff.

(** The body of [while True] (lines 235-260): takes [last_clipboard] and
    returns its new value. *)
Definition iteration (cfg : config) (t : tick) (last_clipboard : option str)
    : M (option str) :=
  (match paste t with
   | Raise exc =>
       print (LogClipboardReadFailed exc);;
       emit Sleep;;
       ret last_clipboard
   | Ok current =>
       let* last :=
         if bool_decide (Some current ≠ last_clipboard) then
           (process cfg (ext t) current;; ret (Some current))
         else ret last_clipboard in
       emit Sleep;;
       ret last
   end)%eff.

(** The loop, run for as many polls as [ticks] describes. *)
Fixpoint watch (cfg : config) (ticks : list tick)
    (last_clipboard : option str) : M (option str) :=
  match ticks with
  | [] => ret last_clipboard
  | t :: ticks' =>
      (let* last := iteration cfg t last_clipboard in
       watch cfg ticks' last)%eff
  end.

(** Lines 226-231: the start-up messages. *)
Definition announce (cfg : config) : M unit :=
  (print LogWatching;;
   (if truthy (google_doc_url cfg) then print (LogTargetDoc (google_doc_url cfg))
    else ret tt);;
   if bool_decide (auth_mode cfg = py "oauth_user") then
     (print LogAuthMode;;
      print (LogClientSecrets (client_secrets_file (oauth cfg))))
   else ret tt)%eff.

(** [main()], given what [load_config(DEFAULT_CONFIG_PATH)] does.  The
    result is [Some 1] for [return 1]; [None] says the loop is still
    running after the given polls (it has no exit of its own). *)
Definition main (loaded : result config) (ticks : list tick)
    : M (option Z) :=
  match loaded with
  | Raise exc => (print (LogFatal exc);; ret (Some 1%Z))%eff
  | Ok cfg =>
      (announce cfg;;
       watch cfg ticks None;;
       ret None)%eff
  end.

(** *** Reading a trace *)

(** The contents handed to the classifier, in order. *)
Definition classified (tr : list event) : list str :=
  omap (fun e => match e with Classify raw => Some raw | _ => None end) tr.

(** The requests handed to [urlopen], in order. *)
Definition http_requests (tr : list event) : list Request :=
  omap (fun e => match e with UrlOpen req => Some req | _ => None end) tr.

(** For each classified content, the number of requests sent before the
    next content is classified. *)
Definition attempts_step (e : event) (acc : nat * list (str * nat))
    : nat * list (str * nat) :=
  match e with
  | UrlOpen _ => (S (fst acc), snd acc)
  | Classify raw => (O, (raw, fst acc) :: snd acc)
  | _ => acc
  end.

Definition attempts (tr : list event) : list (str * nat) :=
  snd (foldr attempts_step (O, []) tr).




(** Events that are neither a classification nor a request. *)
Definition no_io (evs : list event) : Prop :=
  classified evs = [] /\ http_requests evs = [].

(** A computation that only adds such events to the trace. *)
Definition quiet {A} (m : M A) : Prop :=
  forall w, exists evs, out (snd (m w)) = out w ++ evs /\ no_io evs.



(** Whether line 163 is reached (the interactive login is needed): there is
    no token file, or the cached credential is not valid and cannot be
    refreshed. *)
Definition needs_interactive_auth (ext : external) (cfg : oauth_config)
    (fs : gmap str str) : bool :=
  match fs !! token_file cfg with
  | None => true
  | Some content =>
      match from_authorized_user_file ext content (scopes cfg) with
      | Ok c => negb (valid c) && negb (expired c && truthy_opt (refresh_token c))
      | Raise _ => false
      end
  end.

End Watch.

(** ** Concrete scenarios *)

Module Scenario.
Import PyStr Classifier Effects Auth Delivery Watch.

Definition token_path : str := py "/cfg/.secrets/oauth_token.json".
Definition secrets_path : str := py "/cfg/oauth_client_secret.json".

Definition oauth_cfg : oauth_config :=
  MkOAuth secrets_path token_path [py "openid"].

Definition cfg (mode : str) : config :=
  MkConfig [] (py "https://script.example/exec") (py "LB")
    (py "map_to_misc") mode oauth_cfg DEFAULT_TAG_MAP.

Definition fresh : Credentials :=
  MkCredentials (Some (py "cached-token")) false (Some (py "r1")).
Definition stale : Credentials :=
  MkCredentials (Some (py "old-token")) true (Some (py "r1")).
Definition renewed : Credentials :=
  MkCredentials (Some (py "new-token")) false (Some (py "r1")).

(** A stand-in for the credential file format: three known files. *)
Definition load (content : str) (_ : list str) : result Credentials :=
  if bool_decide (content = py "fresh") then Ok fresh
  else if bool_decide (content = py "stale") then Ok stale
  else if bool_decide (content = py "renewed") then Ok renewed
  else Raise (OtherException (py "ValueError") (py "bad token file")).

Definition dump (c : Credentials) : str :=
  if expired c then py "stale"
  else if bool_decide (token c = Some (py "new-token")) then py "renewed"
  else py "fresh".

(** The outside world, given what a refresh and the endpoint answer. *)
Definition world_with (refreshed : result Credentials)
    (answer : result Response) : external :=
  External true load dump (fun _ => refreshed)
    (fun secrets _ => Ok secrets) (fun _ => Ok fresh) (fun _ => answer).

Definition REFRESH_ERROR : exn :=
  OtherException (py "RefreshError") (py "invalid_grant").

Definition answers (status : Z) (body : str) : external :=
  world_with (Ok renewed) (Ok (MkResponse status body)).

Definition refresh_fails : external :=
  world_with (Raise REFRESH_ERROR) (Ok (MkResponse 200 (py "OK"))).

Definition no_files : world := World ∅ [].
Definition with_token (content : str) : world :=
  World (<[token_path := content]> (<[secrets_path := py "{}"]> ∅)) [].

Definition clip (s : string) (e : external) : tick := MkTick (Ok (py s)) e.

Definition todo_payload : Payload :=
  MkPayload (py "todo") (py "TODO") (py "Buy milk") (py "LB").

Definition URL : str := web_app_url (cfg (py "none")).

Definition NOT_FOUND : exn :=
  FileNotFoundError (MSG_NO_SECRETS ++ secrets_path).

Definition NL : str := [LF].

End Scenario.

From Stdlib Require DecimalString.

(** ** Shapes of texts, for stating further properties *)

Module Shapes.
Import PyStr.

(** A text without line boundary. *)
Definition no_linebreak (s : str) : bool :=
  forallb (fun c => negb (is_linebreak c)) s.

(** What may follow a line: nothing, or a line boundary and anything. *)
Definition ends_line (tail : str) : bool :=
  match tail with
  | [] => true
  | c :: _ => is_linebreak c
  end.

(** The characters a-z and 0-9. *)
Definition is_lower_alnum (c : N) : bool :=
  ((0x61 <=? c) && (c <=? 0x7A)) || ((0x30 <=? c) && (c <=? 0x39)).

(** A text has no colon. *)
Definition no_colon (s : str) : bool := forallb (fun c => negb (c =? COLON)) s.

(** A text has no LF. *)
Definition no_lf (s : str) : bool := forallb (fun d => negb (d =? LF)) s.

End Shapes.

(** ** Frames: what a computation may add to the trace and to the files *)

Module Frames.
Import PyStr Effects Auth Delivery Watch.

(** A computation that only adds events satisfying [P] to the trace. *)
Definition emits_only {A} (P : event -> bool) (m : M A) : Prop :=
  forall w, exists evs, out (snd (m w)) = out w ++ evs /\ forallb P evs = true.

(** From [fs] to [fs'] no file but [path] changed, and [path] was not
    removed. *)
Definition file_frame (path : str) (fs fs' : gmap str str) : Prop :=
  (forall p, p <> path -> fs' !! p = fs !! p)
  /\ (is_Some (fs !! path) -> is_Some (fs' !! path)).

Definition keeps_files {A} (path : str) (m : M A) : Prop :=
  forall w, file_frame path (files w) (files (snd (m w))).

(** The events of the credential manager for the token file [token_path]. *)
Definition auth_event (token_path : str) (e : event) : bool :=
  match e with
  | Print LogAuthStarting => true
  | Refresh _ => true
  | RunLocalServer _ => true
  | WriteText p _ => bool_decide (p = token_path)
  | _ => false
  end.



(** The request [post_payload] builds, given the token when there is one. *)
Definition request_for (web_app_url : str) (payload : Payload)
    (tok : option str) : Request :=
  MkRequest web_app_url payload
    (match tok with
     | Some t => [CONTENT_TYPE; authorization t]
     | None => [CONTENT_TYPE]
     end)
    (py "POST").

End Frames.

(** ** The configuration loader *)

Module Config.
Import PyStr Classifier Effects Auth Delivery Watch.

(** What [json.load] returns.  A number with fraction or exponent is kept
    as its literal; the items of an object are in the order of the dict
    (its keys are distinct). *)
#[warnings="-register-all"]
Inductive json :=
| JNull
| JBool (b : bool)
| JInt (z : Z)
| JFloat (literal : str)
| JStr (s : str)
| JList (l : list json)
| JDict (items : list (str * json)).

(** The built-ins the loader calls that are not spelled out here: [float]
    and its result type, [str] of a float, list or dict, the Unicode
    [str.lower], the decoder, and the [pathlib] operations of
    [resolve_path_]. *)
Record builtins := Builtins {
  float : Type;
  float_half : float;
  py_float : json -> result float;
  str_other : json -> str;
  str_lower : str -> str;
  json_load : str -> result json;
  expanduser : str -> result str;
  is_absolute : str -> bool;
  join_resolve : str -> str -> result str;
  parent : str -> str
}.

(** Sequencing of steps that may raise and do nothing else. *)
Definition rbind {A B} (r : result A) (k : A -> result B) : result B :=
  match r with
  | Ok a => k a
  | Raise e => Raise e
  end.

Declare Scope res_scope.
Delimit Scope res_scope with res.
Notation "'let?' x ':=' r 'in' k" := (rbind r (fun x => k))
  (at level 10, x name, r at level 100, k at level 200) : res_scope.

Definition ValueError (msg : str) : exn := OtherException (py "ValueError") msg.

(** [str(v)] for a value from the file. *)
Definition py_str (b : builtins) (v : json) : str :=
  match v with
  | JStr s => s
  | JNull => py "None"
  | JBool true => py "True"
  | JBool false => py "False"
  | JInt z => py (DecimalString.NilZero.string_of_int (Z.to_int z))
  | _ => str_other b v
  end.

(** [d.get(key, default)] on the items of a dict. *)
Fixpoint dict_get (items : list (str * json)) (key : str) : option json :=
  match items with
  | [] => None
  | (k, v) :: rest => if bool_decide (k = key) then Some v else dict_get rest key
  end.

Definition get_or (items : list (str * json)) (key : str) (dflt : json) : json :=
  default dflt (dict_get items key).

(** The name of the type of a value, for the message of the
    [AttributeError] that [cfg.get] raises when the file is not an
    object. *)
Definition type_name (v : json) : str :=
  match v with
  | JNull => py "NoneType"
  | JBool _ => py "bool"
  | JInt _ => py "int"
  | JFloat _ => py "float"
  | JStr _ => py "str"
  | JList _ => py "list"
  | JDict _ => py "dict"
  end.

Definition no_get (v : json) : exn :=
  OtherException (py "AttributeError")
    (py "'" ++ type_name v ++ py "' object has no attribute 'get'").

(** [resolve_path_(base_dir, raw_path)]. *)
Definition resolve_path_ (b : builtins) (base_dir raw_path : str) : result str :=
  (let? path := expanduser b raw_path in
   if negb (is_absolute b path) then join_resolve b base_dir path
   else Ok path)%res.

Definition DEFAULT_SCOPES : json :=
  JList [JStr (py "openid");
         JStr (py "https://www.googleapis.com/auth/userinfo.email");
         JStr (py "https://www.googleapis.com/auth/userinfo.profile")].

(** Lines 72: the stripped scopes that are not empty. *)
Definition clean_scopes (b : builtins) (l : list json) : list str :=
  List.filter truthy ((fun scope => strip (py_str b scope)) <$> l).

(** Lines 82-85: one item of the configured tag map. *)
Definition add_tag (b : builtins) (tag_map : gmap str str)
    (item : str * json) : gmap str str :=
  let key_norm := str_lower b (strip (fst item)) in
  if truthy key_norm then <[key_norm := py_str b (snd item)]> tag_map
  else tag_map.

(** Lines 79-85. *)
Definition build_tag_map (b : builtins) (tag_map_cfg : json) : gmap str str :=
  match tag_map_cfg with
  | JDict items => foldl (add_tag b) DEFAULT_TAG_MAP items
  | _ => DEFAULT_TAG_MAP
  end.

Definition MSG_NO_CONFIG_1 : str := py "Config file not found at ".
Definition MSG_NO_CONFIG_2 : str :=
  py ". Copy config.example.json to config.json and update values.".
Definition MSG_NO_URL : str :=
  py "config.json is missing required field: web_app_url".
Definition MSG_BAD_UNKNOWN : str :=
  py "unknown_prefix_behavior must be 'map_to_misc' or 'ignore'".
Definition MSG_BAD_AUTH : str := py "auth_mode must be 'none' or 'oauth_user'".
Definition MSG_SCOPES_LIST : str := py "oauth.scopes must be a non-empty list".
Definition MSG_SCOPES_EMPTY : str :=
  py "oauth.scopes must contain at least one non-empty scope".

(** Lines 45-100, for the items [cfg] of the object in the file. *)
Definition validate (b : builtins) (config_path : str)
    (cfg : list (str * json)) : result (config * float b) :=
  (let web_app_url := strip (py_str b (get_or cfg (py "web_app_url") (JStr []))) in
   if negb (truthy web_app_url) then Raise (ValueError MSG_NO_URL)
   else
   let who0 := strip (py_str b (get_or cfg (py "who") (JStr (py "LB")))) in
   let who := if truthy who0 then who0 else py "LB" in
   let? poll_interval :=
     match dict_get cfg (py "poll_interval") with
     | Some v => py_float b v
     | None => Ok (float_half b)
     end in
   let unknown_behavior :=
     str_lower b (strip (py_str b
       (get_or cfg (py "unknown_prefix_behavior") (JStr (py "map_to_misc"))))) in
   if negb (bool_decide (unknown_behavior = py "map_to_misc")
            || bool_decide (unknown_behavior = py "ignore"))
   then Raise (ValueError MSG_BAD_UNKNOWN)
   else
   let auth_mode :=
     str_lower b (strip (py_str b (get_or cfg (py "auth_mode") (JStr (py "none"))))) in
   if negb (bool_decide (auth_mode = py "none")
            || bool_decide (auth_mode = py "oauth_user"))
   then Raise (ValueError MSG_BAD_AUTH)
   else
   let oauth_cfg :=
     match get_or cfg (py "oauth") (JDict []) with
     | JDict items => items
     | _ => []
     end in
   match get_or oauth_cfg (py "scopes") DEFAULT_SCOPES with
   | JList (s :: l) =>
       let oauth_scopes := clean_scopes b (s :: l) in
       match oauth_scopes with
       | [] => Raise (ValueError MSG_SCOPES_EMPTY)
       | _ :: _ =>
           let client_secrets_file :=
             strip (py_str b (get_or oauth_cfg (py "client_secrets_file")
                                (JStr (py "oauth_client_secret.json")))) in
           let token_file :=
             strip (py_str b (get_or oauth_cfg (py "token_file")
                                (JStr (py ".secrets/oauth_token.json")))) in
           let tag_map := build_tag_map b (get_or cfg (py "tag_map") (JDict [])) in
           let google_doc_url :=
             strip (py_str b (get_or cfg (py "google_doc_url") (JStr []))) in
           let? secrets := resolve_path_ b (parent b config_path) client_secrets_file in
           let? token := resolve_path_ b (parent b config_path) token_file in
           Ok (MkConfig google_doc_url web_app_url who unknown_behavior
                 auth_mode (MkOAuth secrets token oauth_scopes) tag_map,
               poll_interval)
       end
   | _ => Raise (ValueError MSG_SCOPES_LIST)
   end)%res.

(** [load_config(config_path)], reading from the files [fs]; the result is
    the configuration and the poll interval. *)
Definition load_config (b : builtins) (fs : gmap str str) (config_path : str)
    : result (config * float b) :=
  match fs !! config_path with
  | None =>
      Raise (FileNotFoundError (MSG_NO_CONFIG_1 ++ config_path ++ MSG_NO_CONFIG_2))
  | Some content =>
      (let? cfg := json_load b content in
       match cfg with
       | JDict items => validate b config_path items
       | other => Raise (no_get other)
       end)%res
  end.

(** [main()] from its first line, for the configuration file at
    [config_path]. *)
Definition main_at (b : builtins) (config_path : str) (ticks : list tick)
    : M (option Z) :=
  fun w =>
    main (rbind (load_config b (files w) config_path) (fun r => Ok (fst r)))
      ticks w.

End Config.

(** ** A concrete configuration file *)

Module ConfigScenario.
Import PyStr Classifier Effects Auth Delivery Watch Config Scenario.

Definition CONFIG_PATH : str := py "/cfg/config.json".

Definition sample_tags : list (str * json) :=
  [(py " Buy ", JStr (py "Shopping"));
   (py "TODO", JStr (py "Tasks"));
   (py "  ", JStr (py "dropped"));
   (py "buy", JStr (py "Groceries"))].

Definition sample_items : list (str * json) :=
  [(py "web_app_url", JStr (py " https://script.example/exec "));
   (py "unknown_prefix_behavior", JStr (py "Ignore"));
   (py "tag_map", JDict sample_tags)].

(** The object of a file that only gives the endpoint. *)
Definition minimal : list (str * json) :=
  [(py "web_app_url", JStr (py "https://script.example/exec"))].

Definition loaded_oauth : oauth_config :=
  MkOAuth (py "/cfg/oauth_client_secret.json")
    (py "/cfg/.secrets/oauth_token.json")
    [py "openid";
     py "https://www.googleapis.com/auth/userinfo.email";
     py "https://www.googleapis.com/auth/userinfo.profile"].

(** What the two files load to. *)
Definition sample_config : config :=
  MkConfig [] (py "https://script.example/exec") (py "LB") (py "ignore")
    (py "none") loaded_oauth
    (<[py "buy" := py "Groceries"]> (<[py "todo" := py "Tasks"]> DEFAULT_TAG_MAP)).

(** The object of a small configuration file. *)
Definition sample : json := JDict sample_items.

Definition minimal_config : config :=
  MkConfig [] (py "https://script.example/exec") (py "LB") (py "map_to_misc")
    (py "none") loaded_oauth DEFAULT_TAG_MAP.

(** Stand-ins for the built-ins: ASCII lower-casing, a decoder that knows
    two files, paths joined with a slash. *)
Definition simple : builtins :=
  Builtins Z 0%Z (fun _ => Ok 1%Z) (fun _ => py "?") lower
    (fun content =>
       if bool_decide (content = py "sample") then Ok sample
       else if bool_decide (content = py "minimal") then Ok (JDict minimal)
       else if bool_decide (content = py "{}") then Ok (JDict [])
       else Raise (OtherException (py "JSONDecodeError") (py "bad json")))
    Ok
    (fun p => match p with c :: _ => c =? 0x2F | [] => false end)
    (fun base p => Ok (base ++ py "/" ++ p))
    (fun _ => py "/cfg").

Definition with_config (content : str) : gmap str str :=
  <[CONFIG_PATH := content]> ∅.

End ConfigScenario.

(** * Properties *)

(** ** Strings *)

Module PyStrFacts.
Import PyStr.

Lemma linebreak_isspace c : is_linebreak c = true -> isspace c = true.
Proof.
  unfold is_linebreak, isspace.
  rewrite !orb_true_iff, !andb_true_iff, !N.eqb_eq, !N.leb_le. lia.
Qed.

Lemma truthy_false (s : str) : truthy s = false <-> s = [].
Proof. destruct s; simpl; split; congruence. Qed.

Lemma truthy_true (s : str) : truthy s = true <-> s <> [].
Proof. destruct s; simpl; split; congruence. Qed.

Lemma blank_app (a b : str) : blank (a ++ b) = blank a && blank b.
Proof. apply forallb_app. Qed.

Lemma blank_rev (s : str) : blank (rev s) = blank s.
Proof.
  induction s as [|c s IH]; [reflexivity|].
  simpl rev. rewrite blank_app, IH. simpl. rewrite andb_true_r. apply andb_comm.
Qed.

Lemma lstrip_blank_app (w s : str) :
  blank w = true -> lstrip (w ++ s) = lstrip s.
Proof.
  induction w as [|c w IH]; simpl; [reflexivity|].
  intros [Hc Hw]%andb_true_iff. rewrite Hc. auto.
Qed.

Lemma lstrip_blank (w : str) : blank w = true -> lstrip w = [].
Proof.
  intros H. rewrite <- (app_nil_r w). rewrite lstrip_blank_app; auto.
Qed.

Lemma lstrip_head (s : str) c r : lstrip s = c :: r -> isspace c = false.
Proof.
  induction s as [|d s IH]; simpl; [discriminate|].
  destruct (isspace d) eqn:E; [exact IH|]. intros [= <- _]. exact E.
Qed.

Lemma lstrip_nil (s : str) : lstrip s = [] -> blank s = true.
Proof.
  induction s as [|d s IH]; simpl; [reflexivity|].
  destruct (isspace d); [exact IH|discriminate].
Qed.

Lemma lstrip_app_nonblank (s w : str) :
  blank s = false -> lstrip (s ++ w) = lstrip s ++ w.
Proof.
  induction s as [|d s IH]; simpl; [discriminate|].
  destruct (isspace d); simpl; auto.
Qed.

Lemma rstrip_app_blank (x w : str) :
  blank w = true -> rstrip (x ++ w) = rstrip x.
Proof.
  intros H. unfold rstrip. rewrite rev_app_distr, lstrip_blank_app; auto.
  now rewrite blank_rev.
Qed.

Lemma rstrip_nil (x : str) : rstrip x = [] -> blank x = true.
Proof.
  unfold rstrip. intros H.
  apply (f_equal (@rev N)) in H. rewrite rev_involutive in H. simpl in H.
  apply lstrip_nil in H. now rewrite blank_rev in H.
Qed.

Lemma strip_blank (w : str) : blank w = true -> strip w = [].
Proof. intros H. unfold strip. now rewrite lstrip_blank. Qed.

Lemma strip_nil (s : str) : strip s = [] -> blank s = true.
Proof.
  unfold strip. intros H. apply rstrip_nil in H.
  destruct (lstrip s) as [|c r] eqn:E; [now apply lstrip_nil|].
  apply lstrip_head in E. simpl in H. rewrite E in H. discriminate.
Qed.

Lemma strip_truthy (s : str) : truthy (strip s) = negb (blank s).
Proof.
  destruct (blank s) eqn:E.
  - now rewrite strip_blank.
  - simpl. apply truthy_true. intros H. apply strip_nil in H. congruence.
Qed.

Lemma strip_blank_l (w s : str) : blank w = true -> strip (w ++ s) = strip s.
Proof. intros H. unfold strip. now rewrite lstrip_blank_app. Qed.

Lemma strip_blank_r (s w : str) : blank w = true -> strip (s ++ w) = strip s.
Proof.
  intros H. destruct (blank s) eqn:E.
  - rewrite !strip_blank; auto. rewrite blank_app, E, H. reflexivity.
  - unfold strip. rewrite lstrip_app_nonblank by exact E.
    now apply rstrip_app_blank.
Qed.

(** The two equations of [splitlines_from] on a non-empty input. *)
Lemma splitlines_from_break cur c (s : str) :
  is_linebreak c = true ->
  splitlines_from cur (c :: s) = cur :: splitlines_from [] (after_break c s).
Proof.
  intros H. simpl. rewrite H. destruct s as [|d s']; simpl; [reflexivity|].
  destruct ((c =? CR) && (d =? LF)); reflexivity.
Qed.

Lemma splitlines_from_char cur c (s : str) :
  is_linebreak c = false ->
  splitlines_from cur (c :: s) = splitlines_from (cur ++ [c]) s.
Proof. intros H. simpl. now rewrite H. Qed.

End PyStrFacts.

(** ** The first non-blank line *)

Module FirstLine.
Import PyStr PyStrFacts Classifier.

Lemma strip_not_truthy (s : str) : truthy (strip s) = false -> strip s = [].
Proof. apply truthy_false. Qed.

Lemma sel_nil cur : sel cur [] = strip cur.
Proof.
  unfold sel. simpl. destruct cur as [|c cur]; simpl; [reflexivity|].
  destruct (truthy (strip (c :: cur))) eqn:E; [reflexivity|].
  symmetry. now apply strip_not_truthy.
Qed.

Lemma sel_after_break c (s : str) : sel [] (after_break c s) = sel [] s.
Proof.
  destruct s as [|d s]; [reflexivity|]. simpl.
  destruct ((c =? CR) && (d =? LF)) eqn:E; [|reflexivity].
  apply andb_true_iff in E as [_ ->%N.eqb_eq].
  unfold sel. rewrite splitlines_from_break by reflexivity.
  destruct s; reflexivity.
Qed.

Lemma sel_break cur c (s : str) :
  is_linebreak c = true ->
  sel cur (c :: s) = if truthy (strip cur) then strip cur else sel [] s.
Proof.
  intros H. unfold sel at 1. rewrite splitlines_from_break by exact H.
  simpl. destruct (truthy (strip cur)); [reflexivity|].
  apply sel_after_break.
Qed.

Lemma sel_char cur c (s : str) :
  is_linebreak c = false -> sel cur (c :: s) = sel (cur ++ [c]) s.
Proof. intros H. unfold sel. now rewrite splitlines_from_char. Qed.

(** Pending whitespace in front of the current line is invisible. *)
Lemma sel_blank_pending (s w k : str) :
  blank w = true -> sel (w ++ k) s = sel k s.
Proof.
  intros Hw. revert k. induction s as [|c s IH]; intros k.
  - rewrite !sel_nil. now apply strip_blank_l.
  - destruct (is_linebreak c) eqn:E.
    + rewrite !sel_break by exact E. now rewrite strip_blank_l.
    + rewrite !sel_char by exact E. rewrite <- app_assoc. apply IH.
Qed.

(** Whitespace in front of the text does not change the selected line. *)
Lemma sel_blank_prefix (w cur s : str) :
  blank w = true -> blank cur = true -> sel cur (w ++ s) = sel [] s.
Proof.
  revert cur. induction w as [|c w IH]; intros cur Hw Hcur.
  - simpl. rewrite <- (app_nil_r cur). now apply sel_blank_pending.
  - simpl in Hw. apply andb_true_iff in Hw as [Hc Hw]. simpl.
    destruct (is_linebreak c) eqn:E.
    + rewrite sel_break by exact E.
      rewrite strip_blank by exact Hcur. simpl. now apply IH.
    + rewrite sel_char by exact E. apply IH; [exact Hw|].
      rewrite blank_app, Hcur. simpl. now rewrite Hc.
Qed.

(** A whitespace-only text selects what is pending. *)
Lemma sel_blank (w cur : str) : blank w = true -> sel cur w = strip cur.
Proof.
  revert cur. induction w as [|c w IH]; intros cur Hw.
  - apply sel_nil.
  - simpl in Hw. apply andb_true_iff in Hw as [Hc Hw].
    destruct (is_linebreak c) eqn:E.
    + rewrite sel_break by exact E.
      destruct (truthy (strip cur)) eqn:T; [reflexivity|].
      rewrite IH by exact Hw. symmetry. now apply strip_not_truthy.
    + rewrite sel_char by exact E. rewrite IH by exact Hw.
      apply strip_blank_r. simpl. now rewrite Hc.
Qed.

(** Whitespace after the text does not change the selected line. *)
Lemma sel_blank_suffix (s cur w : str) :
  blank w = true -> sel cur (s ++ w) = sel cur s.
Proof.
  intros Hw. revert cur. induction s as [|c s IH]; intros cur.
  - simpl. rewrite sel_nil. now apply sel_blank.
  - simpl. destruct (is_linebreak c) eqn:E.
    + rewrite !sel_break by exact E. now rewrite IH.
    + rewrite !sel_char by exact E. apply IH.
Qed.

(** A text without line boundary is one line. *)
Lemma sel_one_line (l cur : str) :
  forallb (fun c => negb (is_linebreak c)) l = true ->
  sel cur l = strip (cur ++ l).
Proof.
  revert cur. induction l as [|c l IH]; intros cur H.
  - rewrite app_nil_r. apply sel_nil.
  - simpl in H. apply andb_true_iff in H as [Hc H].
    apply negb_true_iff in Hc. rewrite sel_char by exact Hc.
    rewrite IH by exact H. now rewrite <- app_assoc.
Qed.

(** Nothing after the first non-blank line is looked at. *)
Lemma sel_first_line (l cur : str) nl (rest : str) :
  forallb (fun c => negb (is_linebreak c)) l = true ->
  is_linebreak nl = true ->
  blank (cur ++ l) = false ->
  sel cur (l ++ nl :: rest) = strip (cur ++ l).
Proof.
  revert cur. induction l as [|c l IH]; intros cur H Hnl Hb.
  - simpl. rewrite app_nil_r in *. rewrite sel_break by exact Hnl.
    now rewrite strip_truthy, Hb.
  - simpl in H. apply andb_true_iff in H as [Hc H].
    apply negb_true_iff in Hc. simpl. rewrite sel_char by exact Hc.
    rewrite IH; rewrite <- ?app_assoc; auto.
Qed.

Lemma parse_sel (raw unknown_behavior : str) (tag_map : gmap str str) :
  parse_clipboard_text (Some raw) unknown_behavior tag_map
  = classify_line (sel [] raw) unknown_behavior tag_map.
Proof. reflexivity. Qed.

End FirstLine.

(** ** The classifier *)

Module ClassifierFacts.
Import PyStr PyStrFacts Classifier FirstLine.

Lemma PREFIX_RE_match_token line tok g :
  PREFIX_RE_match line = Some (tok, g) -> tok <> [] /\ line <> [].
Proof.
  unfold PREFIX_RE_match.
  destruct line as [|c line]; [discriminate|].
  destruct (span is_alnum (c :: line)) as [token after].
  destruct token as [|t token]; [discriminate|].
  destruct after as [|d rest]; [discriminate|].
  destruct (d =? COLON); [|discriminate].
  destruct (span _ rest) as [b tl].
  destruct tl as [|x [|y tl]]; intros [= <- _] || discriminate; split; discriminate.
Qed.

Lemma lower_nonempty (s : str) : s <> [] -> lower s <> [].
Proof. destruct s; [congruence|discriminate]. Qed.

Lemma resolve_prefix_nonempty (prefix ub : str) (tm : gmap str str) r :
  prefix <> [] -> resolve_prefix prefix ub tm = Some r -> r <> [].
Proof.
  unfold resolve_prefix. intros Hp.
  destruct (tm !! prefix); [intros [= <-]; exact Hp|].
  destruct (bool_decide _); [intros [= <-]; discriminate|discriminate].
Qed.

Lemma classify_line_nonempty (line ub : str) (tm : gmap str str) e :
  classify_line line ub tm = Some e ->
  type_ e <> [] /\ section e <> [] /\ text e <> [].
Proof.
  unfold classify_line.
  destruct (truthy line); simpl; [|discriminate].
  destruct (PREFIX_RE_match line) as [[tok g]|] eqn:Em; [|discriminate].
  destruct (truthy (strip g)) eqn:Et; simpl; [|discriminate].
  destruct (resolve_prefix (lower tok) ub tm) as [prefix|] eqn:Er; [|discriminate].
  destruct (truthy (strip (default [] (tm !! prefix)))) eqn:Es; simpl;
    [|discriminate].
  intros [= <-]. simpl. repeat split.
  - apply PREFIX_RE_match_token in Em as [Htok _].
    eapply resolve_prefix_nonempty; [|exact Er]. now apply lower_nonempty.
  - now apply truthy_true.
  - now apply truthy_true.
Qed.

(** C1. For every raw text (also Python's [None]), every tag map and every
    value of the unknown-tag policy, [parse_clipboard_text] returns a
    result (it is a total function: no case raises), and the result is
    either [None] or an entry whose tag, section and text are all
    non-empty strings. *)
Theorem parse_clipboard_text_total_nonempty
    (raw_text : option str) (unknown_behavior : str) (tag_map : gmap str str) :
  parse_clipboard_text raw_text unknown_behavior tag_map = None
  \/ exists e,
       parse_clipboard_text raw_text unknown_behavior tag_map = Some e
       /\ type_ e <> [] /\ section e <> [] /\ text e <> [].
Proof.
  destruct raw_text as [raw|]; [|left; reflexivity].
  rewrite parse_sel.
  destruct (classify_line (sel [] raw) unknown_behavior tag_map) as [e|] eqn:E;
    [right|left; reflexivity].
  exists e. split; [reflexivity|]. eapply classify_line_nonempty, E.
Qed.

(** C4. When the first non-blank line matches the tag pattern with a
    non-empty trimmed remainder and the lower-cased token is not a key of
    the tag map: under [map_to_misc] the tag becomes [misc] and the section
    is what the tag map gives for [misc] (trimmed; no entry is produced when
    that is missing or blank); under [ignore] the result is [None]. *)
Theorem unknown_tag_policy (raw : str) (tag_map : gmap str str) token rest :
  PREFIX_RE_match (first_nonempty_line (splitlines raw)) = Some (token, rest) ->
  strip rest <> [] ->
  tag_map !! lower token = None ->
  parse_clipboard_text (Some raw) (py "map_to_misc") tag_map
  = match tag_map !! py "misc" with
    | Some sec =>
        if truthy (strip sec)
        then Some (Entry (py "misc") (strip sec) (strip rest))
        else None
    | None => None
    end
  /\ parse_clipboard_text (Some raw) (py "ignore") tag_map = None.
Proof.
  intros Hm Hrest Hlook. rewrite !parse_sel. unfold sel, splitlines in Hm |- *.
  fold (splitlines raw) in Hm |- *.
  unfold classify_line. rewrite Hm.
  destruct (PREFIX_RE_match_token _ _ _ Hm) as [_ Hline].
  apply truthy_true in Hline, Hrest. rewrite Hline, Hrest. simpl.
  unfold resolve_prefix. rewrite Hlook. split.
  - rewrite bool_decide_eq_true_2 by reflexivity.
    destruct (tag_map !! py "misc") as [sec|]; simpl; [|reflexivity].
    destruct (truthy (strip sec)); reflexivity.
  - rewrite bool_decide_eq_false_2 by discriminate. reflexivity.
Qed.

Lemma unknown_tag_policy_witness :
  parse_clipboard_text (Some (py "xyz: something")) (py "map_to_misc")
    DEFAULT_TAG_MAP
  = Some (Entry (py "misc") (py "Miscellany") (py "something"))
  /\ parse_clipboard_text (Some (py "xyz: something")) (py "ignore")
       DEFAULT_TAG_MAP = None.
Proof.
  apply (unknown_tag_policy (py "xyz: something") DEFAULT_TAG_MAP
           (py "xyz") (py " something")).
  - vm_compute. reflexivity.
  - vm_compute. discriminate.
  - vm_compute. reflexivity.
Defined.

(** C9. Only the first non-blank line is consulted.  For a line [l] that
    is not blank and contains no line boundary: putting any whitespace-only
    text [w] in front of it (in particular any number of blank or empty
    lines with their terminators), and any text at all after its
    terminator, gives the same result as [l] alone. *)
Theorem first_nonblank_line_only
    (w l unknown_behavior : str) (tag_map : gmap str str) :
  blank w = true ->
  forallb (fun c => negb (is_linebreak c)) l = true ->
  blank l = false ->
  parse_clipboard_text (Some (w ++ l)) unknown_behavior tag_map
  = parse_clipboard_text (Some l) unknown_behavior tag_map
  /\ forall nl (rest : str),
       is_linebreak nl = true ->
       parse_clipboard_text (Some (w ++ l ++ nl :: rest)) unknown_behavior tag_map
       = parse_clipboard_text (Some l) unknown_behavior tag_map.
Proof.
  intros Hw Hl Hb. rewrite !parse_sel. split.
  - now rewrite sel_blank_prefix.
  - intros nl rest Hnl. rewrite parse_sel.
    rewrite sel_blank_prefix by auto.
    rewrite sel_first_line, sel_one_line by auto. reflexivity.
Qed.

Lemma first_nonblank_line_only_witness :
  parse_clipboard_text
    (Some (py "  " ++ [LF; CR; LF] ++ py "todo: X" ++ LF :: py "fu: later"))
    (py "ignore") DEFAULT_TAG_MAP
  = parse_clipboard_text (Some (py "todo: X")) (py "ignore") DEFAULT_TAG_MAP.
Proof.
  apply (first_nonblank_line_only (py "  " ++ [LF; CR; LF]) (py "todo: X")
           (py "ignore") DEFAULT_TAG_MAP);
    reflexivity.
Defined.

(** C10. The pattern is matched against the trimmed first non-blank line:
    whitespace put before and after a text (so also around a single tagged
    line) does not change the result, for every tag map and policy. *)
Theorem surrounding_whitespace_ignored
    (w1 w2 s unknown_behavior : str) (tag_map : gmap str str) :
  blank w1 = true ->
  blank w2 = true ->
  parse_clipboard_text (Some (w1 ++ s ++ w2)) unknown_behavior tag_map
  = parse_clipboard_text (Some s) unknown_behavior tag_map.
Proof.
  intros H1 H2. rewrite !parse_sel.
  rewrite sel_blank_prefix by auto. now rewrite sel_blank_suffix.
Qed.

Lemma surrounding_whitespace_ignored_witness :
  parse_clipboard_text (Some (py "  " ++ py "todo: x" ++ py "  "))
    (py "map_to_misc") DEFAULT_TAG_MAP
  = parse_clipboard_text (Some (py "todo: x")) (py "map_to_misc")
      DEFAULT_TAG_MAP.
Proof.
  apply (surrounding_whitespace_ignored (py "  ") (py "  ") (py "todo: x"));
    reflexivity.
Defined.

End ClassifierFacts.

(** ** The credential manager *)

Module AuthFacts.
Import PyStr Effects Auth.

(** C8. With the OAuth libraries importable, a token file that exists and
    loads to a credential whose token is present (non-empty) and not
    expired: [get_oauth_access_token] returns that token and leaves the
    world as it was, so no file is written and neither a refresh nor the
    interactive login happens. *)
Theorem cached_valid_token_reused
    (ext : external) (cfg : oauth_config) (w : world)
    (content : str) (c : Credentials) (tok : str) :
  oauth_deps ext = true ->
  files w !! token_file cfg = Some content ->
  from_authorized_user_file ext content (scopes cfg) = Ok c ->
  token c = Some tok ->
  tok <> [] ->
  expired c = false ->
  get_oauth_access_token ext cfg w = (Ok tok, w).
Proof.
  intros Hdeps Hfile Hload Htok Hne Hexp.
  unfold get_oauth_access_token, load_cached, bind, read_files, lift, ret.
  rewrite Hdeps. simpl. rewrite Hfile, Hload.
  unfold valid. rewrite Htok, Hexp. simpl. rewrite Htok.
  apply PyStrFacts.truthy_true in Hne. now rewrite Hne.
Qed.


End AuthFacts.

Module AuthScenarios.
Import PyStr Effects Auth Scenario AuthFacts.

Lemma cached_valid_token_reused_witness :
  get_oauth_access_token (answers 200 (py "OK")) oauth_cfg (with_token (py "fresh"))
  = (Ok (py "cached-token"), with_token (py "fresh")).
Proof.
  apply (cached_valid_token_reused (answers 200 (py "OK")) oauth_cfg
           (with_token (py "fresh")) (py "fresh") fresh (py "cached-token"));
    solve [vm_compute; reflexivity | vm_compute; discriminate].
Defined.



End AuthScenarios.

(** ** Traces *)

Module TraceFacts.
Import PyStr Effects Auth Delivery Watch.

Lemma classified_app (a b : list event) :
  classified (a ++ b) = classified a ++ classified b.
Proof. apply omap_app. Qed.

Lemma http_requests_app (a b : list event) :
  http_requests (a ++ b) = http_requests a ++ http_requests b.
Proof. apply omap_app. Qed.

Lemma no_io_nil : no_io [].
Proof. split; reflexivity. Qed.

Lemma no_io_app (a b : list event) : no_io a -> no_io b -> no_io (a ++ b).
Proof.
  intros [Ha1 Ha2] [Hb1 Hb2]. split.
  - now rewrite classified_app, Ha1, Hb1.
  - now rewrite http_requests_app, Ha2, Hb2.
Qed.

Section Quiet.
Context {A B : Type}.

Lemma quiet_ret (a : A) : quiet (ret a).
Proof. intros w. exists []. rewrite app_nil_r. split; [reflexivity|apply no_io_nil]. Qed.

Lemma quiet_raise (e : exn) : quiet (@raise A e).
Proof. intros w. exists []. rewrite app_nil_r. split; [reflexivity|apply no_io_nil]. Qed.

Lemma quiet_lift (r : result A) : quiet (lift r).
Proof. intros w. exists []. rewrite app_nil_r. split; [reflexivity|apply no_io_nil]. Qed.

Lemma quiet_bind (m : M A) (k : A -> M B) :
  quiet m -> (forall a, quiet (k a)) -> quiet (bind m k).
Proof.
  intros Hm Hk w. destruct (Hm w) as (e1 & H1 & N1). unfold bind.
  destruct (m w) as [[a|e] w1]; simpl in *.
  - destruct (Hk a w1) as (e2 & H2 & N2). exists (e1 ++ e2).
    rewrite H2, H1, app_assoc. split; [reflexivity|now apply no_io_app].
  - now exists e1.
Qed.

Lemma quiet_try_except (m : M A) (h : exn -> M A) :
  quiet m -> (forall e, quiet (h e)) -> quiet (try_except m h).
Proof.
  intros Hm Hh w. destruct (Hm w) as (e1 & H1 & N1). unfold try_except.
  destruct (m w) as [[a|e] w1]; simpl in *.
  - now exists e1.
  - destruct (Hh e w1) as (e2 & H2 & N2). exists (e1 ++ e2).
    rewrite H2, H1, app_assoc. split; [reflexivity|now apply no_io_app].
Qed.

End Quiet.

Lemma quiet_read_files : quiet read_files.
Proof. intros w. exists []. rewrite app_nil_r. split; [reflexivity|apply no_io_nil]. Qed.

Lemma quiet_print l : quiet (print l).
Proof. intros w. exists [Print l]. now split. Qed.

Lemma quiet_sleep : quiet (emit Sleep).
Proof. intros w. exists [Sleep]. now split. Qed.

Lemma quiet_refresh c : quiet (emit (Refresh c)).
Proof. intros w. exists [Refresh c]. now split. Qed.

Lemma quiet_run_local_server f : quiet (emit (RunLocalServer f)).
Proof. intros w. exists [RunLocalServer f]. now split. Qed.

Lemma quiet_write_text path content : quiet (write_text path content).
Proof. intros w. exists [WriteText path content]. now split. Qed.

Create HintDb quiet.
#[export] Hint Resolve quiet_ret quiet_raise quiet_lift quiet_read_files
  quiet_print quiet_sleep quiet_refresh quiet_run_local_server
  quiet_write_text : quiet.

(** Splits a computation along its binds and case distinctions. *)
Ltac quiet_step :=
  match goal with
  | |- quiet (bind _ _) => apply quiet_bind; [|intros ?]
  | |- quiet (try_except _ _) => apply quiet_try_except; [|intros ?]
  | |- quiet (if ?b then _ else _) => destruct b
  | |- quiet (match ?x with _ => _ end) => destruct x
  end.

Ltac quiet_solve := repeat quiet_step; auto with quiet.

Lemma quiet_interactive_login ext cfg : quiet (interactive_login ext cfg).
Proof. unfold interactive_login. quiet_solve. Qed.

Lemma quiet_renew ext cfg creds : quiet (renew ext cfg creds).
Proof.
  unfold renew. quiet_solve; apply quiet_interactive_login.
Qed.

Lemma quiet_get_oauth_access_token ext cfg :
  quiet (get_oauth_access_token ext cfg).
Proof.
  unfold get_oauth_access_token, load_cached.
  quiet_solve; apply quiet_renew.
Qed.

Lemma quiet_prepare_headers ext cfg : quiet (prepare_headers ext cfg).
Proof.
  unfold prepare_headers. quiet_solve. apply quiet_get_oauth_access_token.
Qed.

End TraceFacts.

(** ** The delivery client *)

Module DeliveryFacts.
Import PyStr PyStrFacts Effects Auth Delivery Watch TraceFacts.


(** What [send] returns and prints, by the answer of the endpoint. *)
Lemma send_result ext req w :
  exists b line,
    send ext req w = (Ok b, World (files w) (out w ++ UrlOpen req :: line))
    /\ no_io line
    /\ match urlopen ext req with
       | Ok resp =>
           b = acknowledged (status resp) (strip (body resp))
           /\ line = if b then []
                     else [Print (LogServerResponse (status resp)
                                    (strip (body resp)))]
       | Raise (HTTPError code detail) =>
           b = false /\ line = [Print (LogHTTPError code detail)]
       | Raise (URLError reason) =>
           b = false /\ line = [Print (LogNetworkIssue (URLError reason))]
       | Raise exc => b = false /\ line = [Print (LogUnexpectedFailure exc)]
       end.
Proof.
  unfold send, bind, emit, print, emit, ret. simpl.
  destruct (urlopen ext req) as [resp|exc].
  - destruct (acknowledged (status resp) (strip (body resp))) eqn:E;
      simpl; rewrite <- ?app_assoc; simpl; eexists _, _;
      (split; [reflexivity|]); (split; [now split|]); now rewrite ?E.
  - destruct exc; simpl; rewrite <- ?app_assoc; simpl; eexists _, _;
      (split; [reflexivity|]); (split; [now split|]); now split.
Qed.

(** [post_payload] returns a boolean (nothing escapes it), sends at most
    one request and classifies nothing. *)
Lemma post_payload_result ext web_app_url payload cfg w :
  exists b w' evs,
    post_payload ext web_app_url payload cfg w = (Ok b, w')
    /\ out w' = out w ++ evs
    /\ classified evs = []
    /\ (length (http_requests evs) <= 1)%nat.
Proof.
  unfold post_payload, bind.
  destruct (quiet_prepare_headers ext cfg w) as (e1 & H1 & N1 & N2).
  assert (Hok : exists p, fst (prepare_headers ext cfg w) = Ok p).
  { unfold prepare_headers. destruct (bool_decide _); [|now eexists].
    unfold try_except, bind.
    destruct (get_oauth_access_token ext (oauth cfg) w) as [[tok|e] w1];
      simpl; now eexists. }
  destruct Hok as [p Hp].
  destruct (prepare_headers ext cfg w) as [r w1]. simpl in *. subst r.
  destruct p as [headers|early].
  - destruct (send_result ext (MkRequest web_app_url payload headers (py "POST")) w1)
      as (b & line & -> & [L1 L2] & _).
    exists b. eexists.
    exists (e1 ++ UrlOpen (MkRequest web_app_url payload headers (py "POST")) :: line).
    split; [reflexivity|].
    simpl. rewrite H1, <- app_assoc. repeat split.
    + rewrite classified_app, N1. simpl. exact L1.
    + rewrite http_requests_app, N2. simpl. rewrite L2. simpl. lia.
  - exists early, w1, e1. unfold ret. repeat split; auto.
    rewrite N2. simpl. lia.
Qed.


Lemma post_payload_auth_failure
    (ext : external) (web_app_url : str) (payload : Payload) (cfg : config)
    (w w' : world) (exc : exn) :
  auth_mode cfg = py "oauth_user" ->
  get_oauth_access_token ext (oauth cfg) w = (Raise exc, w') ->
  post_payload ext web_app_url payload cfg w
  = (Ok false, World (files w') (out w' ++ [Print (LogAuthFailure exc)])).
Proof.
  intros Hmode Hauth.
  unfold post_payload, prepare_headers, bind, try_except.
  rewrite Hmode, bool_decide_eq_true_2 by reflexivity. rewrite Hauth.
  reflexivity.
Qed.

(** C7. Under [oauth_user], when [get_oauth_access_token] raises (whatever
    the exception), [post_payload] prints the auth failure and returns
    [False]; no request is handed to [urlopen]. *)
Theorem auth_failure_no_request
    (ext : external) (web_app_url : str) (payload : Payload) (cfg : config)
    (w w' : world) (exc : exn) :
  auth_mode cfg = py "oauth_user" ->
  get_oauth_access_token ext (oauth cfg) w = (Raise exc, w') ->
  let r := post_payload ext web_app_url payload cfg w in
  fst r = Ok false
  /\ out (snd r) = out w' ++ [Print (LogAuthFailure exc)]
  /\ files (snd r) = files w'
  /\ http_requests (out (snd r)) = http_requests (out w).
Proof.
  intros Hmode Hauth r. subst r.
  rewrite (post_payload_auth_failure _ _ _ _ _ _ _ Hmode Hauth).
  simpl. repeat split.
  destruct (quiet_get_oauth_access_token ext (oauth cfg) w)
    as (evs & Hout & _ & Hreq).
  rewrite Hauth in Hout. simpl in Hout.
  rewrite Hout, !http_requests_app, Hreq. simpl. now rewrite !app_nil_r.
Qed.

End DeliveryFacts.

Module DeliveryScenarios.
Import PyStr Effects Auth Delivery Watch Scenario DeliveryFacts.



Example rejected_200_failed :
  post_payload (answers 200 (py "FAILED")) URL todo_payload (cfg (py "none"))
    no_files
  = (Ok false,
     World ∅ [UrlOpen (MkRequest URL todo_payload [CONTENT_TYPE] (py "POST"));
              Print (LogServerResponse 200 (py "FAILED"))]).
Proof. vm_compute. reflexivity. Qed.

Lemma auth_failure_no_request_witness :
  let r := post_payload (answers 200 (py "OK")) URL todo_payload
             (cfg (py "oauth_user")) no_files in
  fst r = Ok false
  /\ out (snd r)
     = out no_files
       ++ [Print (LogAuthFailure (FileNotFoundError (MSG_NO_SECRETS ++ secrets_path)))]
  /\ files (snd r) = files no_files
  /\ http_requests (out (snd r)) = http_requests (out no_files).
Proof.
  apply (auth_failure_no_request (answers 200 (py "OK")) URL todo_payload
           (cfg (py "oauth_user")) no_files no_files);
    vm_compute; reflexivity.
Defined.

End DeliveryScenarios.

(** ** The watch loop *)

Module WatchFacts.
Import PyStr Classifier Effects Auth Delivery Watch TraceFacts DeliveryFacts.

Lemma process_result cfg ext (current : str) w :
  exists w' rest,
    process cfg ext current w = (Ok tt, w')
    /\ out w' = out w ++ Classify current :: rest
    /\ classified rest = []
    /\ (length (http_requests rest) <= 1)%nat.
Proof.
  unfold process.
  destruct (parse_clipboard_text (Some current) (unknown_prefix_behavior cfg)
              (tag_map cfg)) as [parsed|]; unfold bind, emit; simpl.
  - match goal with |- context [post_payload ?e ?u ?p ?c ?w0] =>
      destruct (post_payload_result e u p c w0) as (b & w1 & evs & -> & Ho & Hc & Hr)
    end.
    simpl in Ho. rewrite <- app_assoc in Ho. simpl in Ho.
    destruct b.
    + eexists. exists (evs ++ [Print (LogSent (type_ parsed) (text parsed))]).
      split; [reflexivity|]. simpl. rewrite Ho, <- app_assoc.
      split; [reflexivity|].
      rewrite classified_app, http_requests_app, Hc. simpl.
      rewrite app_nil_r. auto.
    + exists w1, evs. unfold ret. auto.
  - eexists. exists []. unfold ret. simpl. repeat split. lia.
Qed.

(** One poll: the new [last_clipboard] and the shape of what happened. *)
Lemma iteration_result cfg t last w :
  exists w' evs,
    iteration cfg t last w
    = (Ok match paste t with Ok c => Some c | Raise _ => last end, w')
    /\ out w' = out w ++ evs
    /\ match paste t with
       | Ok c =>
           if bool_decide (Some c ≠ last)
           then exists rest, evs = Classify c :: rest
                             /\ classified rest = []
                             /\ (length (http_requests rest) <= 1)%nat
           else no_io evs
       | Raise _ => no_io evs
       end.
Proof.
  unfold iteration. destruct (paste t) as [c|exc].
  - unfold bind. destruct (bool_decide (Some c ≠ last)) eqn:E.
    + destruct (process_result cfg (ext t) c w) as (w1 & rest & -> & Ho & Hc & Hr).
      unfold ret, emit. simpl. eexists. exists (Classify c :: rest ++ [Sleep]).
      split; [reflexivity|]. simpl. rewrite Ho, <- app_assoc. simpl.
      split; [reflexivity|]. exists (rest ++ [Sleep]). split; [reflexivity|].
      rewrite classified_app, http_requests_app, Hc. simpl.
      rewrite app_nil_r. auto.
    + apply bool_decide_eq_false in E. apply dec_stable in E. subst last.
      unfold ret, emit. simpl. eexists. exists [Sleep].
      repeat split.
  - unfold bind, print, emit, ret. simpl. eexists.
    exists [Print (LogClipboardReadFailed exc); Sleep].
    rewrite <- app_assoc. repeat split.
Qed.








End WatchFacts.

Module FatalityFacts.
Import PyStr Classifier Effects Auth Delivery Watch DeliveryFacts.

(** The interactive login is needed and the client-secret file is missing:
    [FileNotFoundError] naming the path, and nothing else happens. *)
Lemma get_token_missing_secret (ext : external) (ocfg : oauth_config) (w : world) :
  oauth_deps ext = true ->
  needs_interactive_auth ext ocfg (files w) = true ->
  files w !! client_secrets_file ocfg = None ->
  get_oauth_access_token ext ocfg w
  = (Raise (FileNotFoundError (MSG_NO_SECRETS ++ client_secrets_file ocfg)), w).
Proof.
  intros Hdeps Hneed Hsec.
  unfold needs_interactive_auth in Hneed.
  unfold get_oauth_access_token, load_cached, renew, interactive_login, bind,
    read_files, lift, ret, raise.
  rewrite Hdeps. simpl.
  destruct (files w !! token_file ocfg) as [content|].
  - destruct (from_authorized_user_file ext content (scopes ocfg)) as [c|];
      [|discriminate].
    apply andb_true_iff in Hneed as [Hv Hr]. rewrite Hv.
    apply negb_true_iff in Hr. rewrite Hr, Hsec. reflexivity.
  - rewrite Hsec. reflexivity.
Qed.

(** C6 (as the code has it). Under [oauth_user], when the interactive login
    is needed and the client-secret file does not exist,
    [get_oauth_access_token] raises [FileNotFoundError] with a message that
    names the missing path.  This happens inside a poll, when a classified
    entry is to be delivered: [post_payload] catches it, the iteration
    prints the auth failure, sends nothing, records the content as seen and
    sleeps, and the loop goes on with the next poll. *)
Theorem missing_client_secret_recoverable
    (cfg : config) (t : tick) (ticks : list tick) (last : option str)
    (w : world) (current : str) (parsed : entry) :
  auth_mode cfg = py "oauth_user" ->
  oauth_deps (ext t) = true ->
  needs_interactive_auth (ext t) (oauth cfg) (files w) = true ->
  files w !! client_secrets_file (oauth cfg) = None ->
  paste t = Ok current ->
  Some current ≠ last ->
  parse_clipboard_text (Some current) (unknown_prefix_behavior cfg)
    (tag_map cfg) = Some parsed ->
  let exc :=
    FileNotFoundError (MSG_NO_SECRETS ++ client_secrets_file (oauth cfg)) in
  let w' :=
    World (files w)
      (out w ++ [Classify current; Print (LogAuthFailure exc); Sleep]) in
  get_oauth_access_token (ext t) (oauth cfg) w = (Raise exc, w)
  /\ iteration cfg t last w = (Ok (Some current), w')
  /\ watch cfg (t :: ticks) last w = watch cfg ticks (Some current) w'.
Proof.
  intros Hmode Hdeps Hneed Hsec Hpaste Hchg Hparse exc w'.
  assert (Hit : iteration cfg t last w = (Ok (Some current), w')).
  { unfold iteration. rewrite Hpaste.
    rewrite bool_decide_eq_true_2 by exact Hchg.
    unfold process. rewrite Hparse.
    unfold bind at 1 2 3. unfold emit at 1. simpl.
    unfold bind at 1.
    rewrite (post_payload_auth_failure (ext t) (web_app_url cfg) _ cfg
               (World (files w) (out w ++ [Classify current]))
               (World (files w) (out w ++ [Classify current]))
               exc Hmode
               (get_token_missing_secret (ext t) (oauth cfg)
                  (World (files w) (out w ++ [Classify current]))
                  Hdeps Hneed Hsec)).
    unfold bind, ret, emit. simpl. subst w'.
    rewrite <- !app_assoc. reflexivity. }
  split; [now apply get_token_missing_secret|].
  split; [exact Hit|].
  simpl watch. unfold bind at 1. now rewrite Hit.
Qed.

End FatalityFacts.

Module WatchScenarios.
Import PyStr Classifier Effects Auth Delivery Watch Scenario FatalityFacts.

Lemma missing_client_secret_recoverable_witness :
  iteration (cfg (py "oauth_user")) (clip "todo: a" (answers 200 (py "OK")))
    None no_files
  = (Ok (Some (py "todo: a")),
     World ∅ [Classify (py "todo: a"); Print (LogAuthFailure NOT_FOUND); Sleep]).
Proof.
  refine (proj1 (proj2
    (missing_client_secret_recoverable (cfg (py "oauth_user"))
       (clip "todo: a" (answers 200 (py "OK"))) [] None no_files
       (py "todo: a") (Entry (py "todo") (py "TODO") (py "a"))
       _ _ _ _ _ _ _)));
    solve [vm_compute; reflexivity | discriminate].
Defined.

(** C6, as stated, fails: with a loaded configuration in [oauth_user] mode,
    no token file and no client-secret file, the program does not stop
    (the result is not [Some 1]); the error shows up inside the loop, once
    per content to deliver, and the next poll is processed as usual. *)
Lemma missing_client_secret_inside_loop :
  main (Ok (cfg (py "oauth_user")))
    [clip "todo: a" (answers 200 (py "OK"));
     clip "fu: b" (answers 200 (py "OK"))] no_files
  = (Ok None,
     World ∅ [Print LogWatching; Print LogAuthMode;
              Print (LogClientSecrets secrets_path);
              Classify (py "todo: a"); Print (LogAuthFailure NOT_FOUND); Sleep;
              Classify (py "fu: b"); Print (LogAuthFailure NOT_FOUND); Sleep]).
Proof. vm_compute. reflexivity. Qed.

(** The content of the clipboard stays the same over three polls with a
    failing endpoint: one classification, one request. *)
Example same_content_once :
  let down := world_with (Ok renewed) (Raise (URLError (py "timed out"))) in
  let r := watch (cfg (py "none"))
             [clip "todo: a" down; clip "todo: a" down; clip "todo: a" down]
             None no_files in
  fst r = Ok (Some (py "todo: a"))
  /\ attempts (out (snd r)) = [(py "todo: a", 1%nat)].
Proof. vm_compute. split; reflexivity. Qed.

End WatchScenarios.

Module ClassifierExamples.
Import PyStr Classifier Scenario.

Example parse_todo :
  parse_clipboard_text (Some (py "todo: Buy milk" ++ NL)) (py "map_to_misc")
    DEFAULT_TAG_MAP
  = Some (Entry (py "todo") (py "TODO") (py "Buy milk")).
Proof. vm_compute. reflexivity. Qed.

Example parse_unknown_ignore :
  parse_clipboard_text (Some (py "xyz: something")) (py "ignore")
    DEFAULT_TAG_MAP = None.
Proof. vm_compute. reflexivity. Qed.

Example parse_unknown_misc :
  parse_clipboard_text (Some (py "xyz: something")) (py "map_to_misc")
    DEFAULT_TAG_MAP
  = Some (Entry (py "misc") (py "Miscellany") (py "something")).
Proof. vm_compute. reflexivity. Qed.

Example parse_upper :
  parse_clipboard_text (Some (py "TODO: buy milk")) (py "ignore")
    DEFAULT_TAG_MAP
  = Some (Entry (py "todo") (py "TODO") (py "buy milk")).
Proof. vm_compute. reflexivity. Qed.

Example parse_empty_rest :
  parse_clipboard_text (Some (py "todo:   ")) (py "map_to_misc")
    DEFAULT_TAG_MAP = None.
Proof. vm_compute. reflexivity. Qed.

Example splitlines_crlf :
  splitlines (py "a" ++ [CR; LF] ++ [LF] ++ py "b" ++ [CR])
  = [py "a"; []; py "b"].
Proof. vm_compute. reflexivity. Qed.

End ClassifierExamples.

(** * Further properties *)

(** ** More about [strip] *)

Module StripFacts.
Import PyStr PyStrFacts.

Lemma lstrip_idem (s : str) : lstrip (lstrip s) = lstrip s.
Proof.
  destruct (lstrip s) as [|c r] eqn:E; [reflexivity|].
  apply lstrip_head in E. simpl. now rewrite E.
Qed.

Lemma rstrip_idem (s : str) : rstrip (rstrip s) = rstrip s.
Proof. unfold rstrip. now rewrite rev_involutive, lstrip_idem. Qed.

Lemma lstrip_app_char (a : str) c (b : str) :
  isspace c = false -> lstrip (a ++ c :: b) = lstrip a ++ c :: b.
Proof.
  intros Hc. induction a as [|d a IH]; simpl.
  - now rewrite Hc.
  - destruct (isspace d); [exact IH|reflexivity].
Qed.

(** Nothing in front of a non-space character is removed from the right. *)
Lemma rstrip_app_char (x : str) c (y : str) :
  isspace c = false -> rstrip (x ++ c :: y) = x ++ c :: rstrip y.
Proof.
  intros Hc. unfold rstrip. rewrite rev_app_distr. simpl.
  rewrite <- app_assoc. simpl. rewrite lstrip_app_char by exact Hc.
  rewrite rev_app_distr. simpl. rewrite rev_involutive, <- app_assoc.
  reflexivity.
Qed.

Lemma rstrip_cons_nonblank c (s : str) :
  blank s = false -> rstrip (c :: s) = c :: rstrip s.
Proof.
  intros H. unfold rstrip. simpl.
  rewrite lstrip_app_nonblank by now rewrite blank_rev.
  rewrite rev_app_distr. reflexivity.
Qed.

Lemma rstrip_blank (s : str) : blank s = true -> rstrip s = [].
Proof.
  intros H. unfold rstrip. rewrite lstrip_blank; [reflexivity|].
  now rewrite blank_rev.
Qed.

Lemma lstrip_rstrip (s : str) : lstrip (rstrip s) = rstrip (lstrip s).
Proof.
  induction s as [|c s IH]; [reflexivity|].
  destruct (isspace c) eqn:Ec.
  - simpl lstrip at 2. rewrite Ec. destruct (blank s) eqn:Eb.
    + rewrite (rstrip_blank (c :: s)) by (simpl; now rewrite Ec).
      rewrite (lstrip_blank s) by exact Eb. reflexivity.
    + rewrite rstrip_cons_nonblank by exact Eb. simpl. now rewrite Ec.
  - simpl lstrip at 2. rewrite Ec.
    change (c :: s) with ([] ++ c :: s).
    rewrite (rstrip_app_char [] c s Ec). simpl. now rewrite Ec.
Qed.

Lemma strip_idem (s : str) : strip (strip s) = strip s.
Proof.
  unfold strip. now rewrite lstrip_rstrip, lstrip_idem, rstrip_idem.
Qed.

Lemma strip_rstrip (s : str) : strip (rstrip s) = strip s.
Proof. unfold strip. now rewrite lstrip_rstrip, rstrip_idem. Qed.

Lemma strip_head_char c (s : str) :
  isspace c = false -> strip (c :: s) = c :: rstrip s.
Proof.
  intros Hc. unfold strip. simpl. rewrite Hc.
  exact (rstrip_app_char [] c s Hc).
Qed.

Lemma forallb_lstrip (p : N -> bool) (s : str) :
  forallb p s = true -> forallb p (lstrip s) = true.
Proof.
  induction s as [|c s IH]; [reflexivity|]. intros H. simpl.
  destruct (isspace c); [|exact H].
  simpl in H. apply andb_true_iff in H as [_ H]. auto.
Qed.

Lemma forallb_rev (p : N -> bool) (s : str) :
  forallb p (rev s) = forallb p s.
Proof.
  induction s as [|c s IH]; [reflexivity|]. simpl.
  rewrite forallb_app, IH. simpl. rewrite andb_true_r. apply andb_comm.
Qed.

Lemma forallb_rstrip (p : N -> bool) (s : str) :
  forallb p s = true -> forallb p (rstrip s) = true.
Proof.
  intros H. unfold rstrip. rewrite forallb_rev. apply forallb_lstrip.
  now rewrite forallb_rev.
Qed.

Lemma forallb_strip (p : N -> bool) (s : str) :
  forallb p s = true -> forallb p (strip s) = true.
Proof. intros H. now apply forallb_rstrip, forallb_lstrip. Qed.

End StripFacts.

(** ** The tag pattern and tagged lines *)

Module TaggedLineFacts.
Import PyStr PyStrFacts Classifier FirstLine StripFacts Shapes Scenario.

Lemma span_split (p : N -> bool) (s a b : str) :
  span p s = (a, b) ->
  s = a ++ b /\ forallb p a = true
  /\ match b with [] => True | c :: _ => p c = false end.
Proof.
  revert a b. induction s as [|c s IH]; intros a b; simpl.
  - intros [= <- <-]. auto.
  - destruct (p c) eqn:Ec.
    + destruct (span p s) as [a' b'] eqn:Es. intros [= <- <-].
      destruct (IH a' b' eq_refl) as (-> & Ha & Hb). simpl. rewrite Ec. auto.
    + intros [= <- <-]. auto.
Qed.

Lemma span_app (p : N -> bool) (a b : str) :
  forallb p a = true ->
  match b with [] => True | c :: _ => p c = false end ->
  span p (a ++ b) = (a, b).
Proof.
  intros Ha Hb. induction a as [|c a IH]; simpl.
  - destruct b as [|d b]; [reflexivity|]. simpl. now rewrite Hb.
  - simpl in Ha. apply andb_true_iff in Ha as [Hc Ha]. rewrite Hc.
    now rewrite IH.
Qed.

Lemma alnum_not_space c : is_alnum c = true -> isspace c = false.
Proof.
  unfold is_alnum, isspace. intros H. apply not_true_is_false. revert H.
  rewrite !orb_true_iff, !andb_true_iff, !N.eqb_eq, !N.leb_le. lia.
Qed.

Lemma alnum_not_linebreak c : is_alnum c = true -> is_linebreak c = false.
Proof.
  intros H. apply not_true_is_false. intros Hl.
  apply linebreak_isspace in Hl. apply alnum_not_space in H. congruence.
Qed.

Lemma lower_char_lower_alnum c :
  is_alnum c = true -> is_lower_alnum (lower_char c) = true.
Proof.
  unfold is_alnum, is_lower_alnum, lower_char.
  destruct ((0x41 <=? c) && (c <=? 0x5A)) eqn:E.
  - apply andb_true_iff in E as [H1 H2]. apply N.leb_le in H1, H2.
    intros _. rewrite !orb_true_iff, !andb_true_iff, !N.leb_le. lia.
  - simpl. auto.
Qed.

Lemma lower_lower_alnum (t : str) :
  forallb is_alnum t = true -> forallb is_lower_alnum (lower t) = true.
Proof.
  induction t as [|c t IH]; [reflexivity|]. simpl.
  intros [Hc Ht]%andb_true_iff. rewrite lower_char_lower_alnum by exact Hc.
  now apply IH.
Qed.

Lemma PREFIX_RE_match_inv (line token rest : str) :
  PREFIX_RE_match line = Some (token, rest) ->
  token <> []
  /\ forallb is_alnum token = true
  /\ no_lf rest = true
  /\ (line = token ++ COLON :: rest \/ line = token ++ COLON :: rest ++ [LF]).
Proof.
  unfold PREFIX_RE_match, no_lf.
  destruct (span is_alnum line) as [tok after] eqn:Es.
  apply span_split in Es as (-> & Htok & _).
  destruct tok as [|t tok]; [discriminate|].
  destruct after as [|c after]; [discriminate|].
  destruct (c =? COLON) eqn:Ec; [|discriminate].
  apply N.eqb_eq in Ec. subst c.
  destruct (span (fun d => negb (d =? LF)) after) as [b tl] eqn:Eb.
  apply span_split in Eb as (-> & Hb & Htl).
  destruct tl as [|x [|y tl]]; [| |discriminate]; intros [= <- <-].
  - rewrite app_nil_r.
    split; [discriminate|]. split; [exact Htok|]. split; [exact Hb|].
    now left.
  - apply negb_false_iff, N.eqb_eq in Htl. subst x.
    split; [discriminate|]. split; [exact Htok|]. split; [exact Hb|].
    now right.
Qed.

Lemma PREFIX_RE_match_build (token rest tail : str) :
  token <> [] ->
  forallb is_alnum token = true ->
  no_lf rest = true ->
  tail = [] \/ tail = [LF] ->
  PREFIX_RE_match (token ++ COLON :: rest ++ tail) = Some (token, rest).
Proof.
  unfold PREFIX_RE_match, no_lf. intros Hne Htok Hrest Htail.
  rewrite (span_app is_alnum token (COLON :: rest ++ tail))
    by (exact Htok || reflexivity).
  destruct token as [|t token]; [congruence|]. simpl.
  destruct Htail as [-> | ->].
  - rewrite span_app by (exact Hrest || exact I). reflexivity.
  - rewrite span_app by (exact Hrest || reflexivity). reflexivity.
Qed.

(** X1. [PREFIX_RE.match] succeeds exactly on the texts made of a non-empty
    run of [A-Za-z0-9], a colon and a remainder without LF, optionally
    followed by one final LF; the groups are the run and the remainder. *)
Theorem PREFIX_RE_match_iff (line token rest : str) :
  PREFIX_RE_match line = Some (token, rest)
  <-> token <> []
      /\ forallb is_alnum token = true
      /\ no_lf rest = true
      /\ (line = token ++ COLON :: rest \/ line = token ++ COLON :: rest ++ [LF]).
Proof.
  split; [apply PREFIX_RE_match_inv|].
  intros (Hne & Htok & Hrest & [-> | ->]).
  - rewrite <- (app_nil_r rest) at 1.
    apply PREFIX_RE_match_build; auto.
  - apply PREFIX_RE_match_build; auto.
Qed.

(** The line selected in a text that starts, after whitespace, with a
    tagged line. *)
Lemma sel_tagged (w t g tail : str) :
  blank w = true -> t <> [] -> forallb is_alnum t = true ->
  no_linebreak g = true -> ends_line tail = true ->
  sel [] (w ++ t ++ COLON :: g ++ tail) = t ++ COLON :: rstrip g.
Proof.
  intros Hw Hne Ht Hg Htail.
  destruct t as [|c t]; [congruence|]. simpl in Ht.
  apply andb_true_iff in Ht as [Hc Ht].
  assert (Hl : no_linebreak ((c :: t) ++ COLON :: g) = true).
  { unfold no_linebreak in *. rewrite forallb_app. simpl.
    rewrite (alnum_not_linebreak c Hc), Hg. simpl. rewrite andb_true_r.
    clear -Ht. induction t as [|d t IH]; [reflexivity|]. simpl in *.
    apply andb_true_iff in Ht as [Hd Ht].
    now rewrite (alnum_not_linebreak d Hd), IH. }
  assert (Hb : blank ((c :: t) ++ COLON :: g) = false).
  { simpl. now rewrite (alnum_not_space c Hc). }
  assert (Hstrip : strip ((c :: t) ++ COLON :: g) = (c :: t) ++ COLON :: rstrip g).
  { simpl. rewrite strip_head_char by now apply alnum_not_space.
    now rewrite rstrip_app_char. }
  rewrite sel_blank_prefix by auto.
  replace ((c :: t) ++ COLON :: g ++ tail) with (((c :: t) ++ COLON :: g) ++ tail)
    by now rewrite <- app_assoc.
  destruct tail as [|nl rest].
  - rewrite app_nil_r, sel_one_line by exact Hl. exact Hstrip.
  - rewrite sel_first_line by auto. exact Hstrip.
Qed.

Lemma no_linebreak_no_lf (g : str) : no_linebreak g = true -> no_lf g = true.
Proof.
  unfold no_linebreak, no_lf. induction g as [|c g IH]; [reflexivity|].
  simpl. intros [Hc Hg]%andb_true_iff. rewrite IH by exact Hg.
  rewrite andb_true_r. destruct (c =? LF) eqn:E; [|reflexivity].
  apply N.eqb_eq in E. subst c. discriminate.
Qed.

(** What the classifier returns for such a text. *)
Lemma parse_tagged (w t g tail ub : str) (tm : gmap str str) :
  blank w = true -> t <> [] -> forallb is_alnum t = true ->
  no_linebreak g = true -> ends_line tail = true ->
  parse_clipboard_text (Some (w ++ t ++ COLON :: g ++ tail)) ub tm
  = if truthy (strip g) then
      match resolve_prefix (lower t) ub tm with
      | None => None
      | Some prefix =>
          if truthy (strip (default [] (tm !! prefix)))
          then Some (Entry prefix (strip (default [] (tm !! prefix))) (strip g))
          else None
      end
    else None.
Proof.
  intros Hw Hne Ht Hg Htail. rewrite parse_sel, sel_tagged by auto.
  unfold classify_line.
  assert (Hm : PREFIX_RE_match (t ++ COLON :: rstrip g) = Some (t, rstrip g)).
  { rewrite <- (app_nil_r (rstrip g)) at 1.
    apply PREFIX_RE_match_build; auto.
    apply forallb_rstrip. now apply no_linebreak_no_lf. }
  rewrite Hm. destruct t as [|c t]; [congruence|]. simpl truthy at 1.
  simpl negb. cbv iota. rewrite strip_rstrip.
  destruct (truthy (strip g)); simpl; [|reflexivity].
  destruct (resolve_prefix _ ub tm) as [prefix|]; [|reflexivity].
  destruct (truthy (strip (default [] (tm !! prefix)))); reflexivity.
Qed.

(** X2. The tag is matched without regard to case: two tagged lines whose
    tokens have the same lower-case form, in the same surroundings, get the
    same result. *)
Theorem tag_case_insensitive (w t1 t2 g tail ub : str) (tm : gmap str str) :
  blank w = true ->
  t1 <> [] -> forallb is_alnum t1 = true ->
  t2 <> [] -> forallb is_alnum t2 = true ->
  lower t1 = lower t2 ->
  no_linebreak g = true -> ends_line tail = true ->
  parse_clipboard_text (Some (w ++ t1 ++ COLON :: g ++ tail)) ub tm
  = parse_clipboard_text (Some (w ++ t2 ++ COLON :: g ++ tail)) ub tm.
Proof.
  intros Hw H1 A1 H2 A2 Hl Hg Htail.
  rewrite !parse_tagged by auto. now rewrite Hl.
Qed.

Lemma tag_case_insensitive_witness :
  parse_clipboard_text (Some (py "TODO" ++ COLON :: py " buy milk")) (py "ignore")
    DEFAULT_TAG_MAP
  = parse_clipboard_text (Some (py "todo" ++ COLON :: py " buy milk")) (py "ignore")
      DEFAULT_TAG_MAP.
Proof.
  apply (tag_case_insensitive [] (py "TODO") (py "todo") (py " buy milk") []
           (py "ignore") DEFAULT_TAG_MAP);
    solve [reflexivity | discriminate].
Defined.

(** X3. A tag that is a key of the tag map with a non-blank section: the
    entry has the lower-cased tag, the trimmed section and the trimmed
    remainder, whatever the unknown-tag policy is. *)
Theorem known_tag_entry (w t g tail ub sec : str) (tm : gmap str str) :
  blank w = true -> t <> [] -> forallb is_alnum t = true ->
  no_linebreak g = true -> ends_line tail = true ->
  blank g = false ->
  tm !! lower t = Some sec -> blank sec = false ->
  parse_clipboard_text (Some (w ++ t ++ COLON :: g ++ tail)) ub tm
  = Some (Entry (lower t) (strip sec) (strip g)).
Proof.
  intros Hw Hne Ht Hg Htail Hb Hsec Hbs.
  rewrite parse_tagged by auto.
  rewrite strip_truthy, Hb. simpl.
  unfold resolve_prefix. rewrite Hsec. simpl. rewrite Hsec. simpl.
  now rewrite strip_truthy, Hbs.
Qed.

Lemma known_tag_entry_witness :
  parse_clipboard_text
    (Some (py "  " ++ py "Fu" ++ COLON :: py " call Ann " ++ LF :: py "todo: x"))
    (py "ignore") DEFAULT_TAG_MAP
  = Some (Entry (py "fu") (py "Follow Up") (py "call Ann")).
Proof.
  apply (known_tag_entry (py "  ") (py "Fu") (py " call Ann ")
           (LF :: py "todo: x") (py "ignore") (py "Follow Up") DEFAULT_TAG_MAP);
    solve [reflexivity | discriminate].
Defined.

(** X4. A tagged line whose remainder is empty or whitespace is not an
    entry, whatever the tag, the tag map and the policy. *)
Theorem blank_remainder_none (w t g tail ub : str) (tm : gmap str str) :
  blank w = true -> t <> [] -> forallb is_alnum t = true ->
  ends_line tail = true ->
  no_linebreak g = true -> blank g = true ->
  parse_clipboard_text (Some (w ++ t ++ COLON :: g ++ tail)) ub tm = None.
Proof.
  intros Hw Hne Ht Htail Hg Hb.
  rewrite parse_tagged by auto. now rewrite strip_truthy, Hb.
Qed.

Lemma blank_remainder_none_witness :
  parse_clipboard_text (Some (py "todo" ++ COLON :: py "   " ++ LF :: py "fu: x"))
    (py "map_to_misc") DEFAULT_TAG_MAP = None.
Proof.
  apply (blank_remainder_none [] (py "todo") (py "   ") (LF :: py "fu: x"));
    solve [reflexivity | discriminate].
Defined.

Lemma forallb_sel (p : N -> bool) (s cur : str) :
  forallb p cur = true -> forallb p s = true -> forallb p (sel cur s) = true.
Proof.
  revert cur. induction s as [|c s IH]; intros cur Hcur Hs.
  - rewrite sel_nil. now apply forallb_strip.
  - simpl in Hs. apply andb_true_iff in Hs as [Hc Hs].
    destruct (is_linebreak c) eqn:E.
    + rewrite sel_break by exact E.
      destruct (truthy (strip cur)); [now apply forallb_strip|now apply IH].
    + rewrite sel_char by exact E. apply IH; [|exact Hs].
      rewrite forallb_app, Hcur. simpl. now rewrite Hc.
Qed.

(** X5. A text without any colon is never an entry. *)
Theorem no_colon_none (raw ub : str) (tm : gmap str str) :
  no_colon raw = true ->
  parse_clipboard_text (Some raw) ub tm = None.
Proof.
  intros H. rewrite parse_sel. unfold classify_line.
  destruct (truthy (sel [] raw)); simpl; [|reflexivity].
  destruct (PREFIX_RE_match (sel [] raw)) as [[tok g]|] eqn:Em; [|reflexivity].
  exfalso. apply PREFIX_RE_match_inv in Em as (_ & _ & _ & Hline).
  assert (Hc : no_colon (sel [] raw) = true) by now apply forallb_sel.
  unfold no_colon in Hc.
  destruct Hline as [Hl | Hl]; rewrite Hl, forallb_app in Hc; simpl in Hc;
    rewrite andb_false_r in Hc; discriminate.
Qed.

Lemma no_colon_none_witness :
  parse_clipboard_text (Some (py "todo buy milk")) (py "map_to_misc")
    DEFAULT_TAG_MAP = None.
Proof.
  apply (no_colon_none (py "todo buy milk")). reflexivity.
Defined.

Lemma resolve_prefix_key (p0 ub : str) (tm : gmap str str) p :
  resolve_prefix p0 ub tm = Some p -> p = p0 \/ p = py "misc".
Proof.
  unfold resolve_prefix. destruct (tm !! p0); [intros [= <-]; auto|].
  destruct (bool_decide _); [intros [= <-]; auto|discriminate].
Qed.

(** X6. Every entry the classifier returns has a tag that is a key of the
    tag map and is written in a-z and 0-9 only, the trimmed value of that
    key as section, and a text without leading or trailing whitespace. *)
Theorem entry_well_formed (raw : option str) (ub : str) (tm : gmap str str) e :
  parse_clipboard_text raw ub tm = Some e ->
  (exists sec, tm !! type_ e = Some sec /\ section e = strip sec)
  /\ forallb is_lower_alnum (type_ e) = true
  /\ strip (text e) = text e
  /\ strip (section e) = section e.
Proof.
  destruct raw as [raw|]; [|discriminate]. rewrite parse_sel.
  unfold classify_line.
  destruct (truthy (sel [] raw)); simpl; [|discriminate].
  destruct (PREFIX_RE_match (sel [] raw)) as [[tok g]|] eqn:Em; [|discriminate].
  destruct (truthy (strip g)); simpl; [|discriminate].
  destruct (resolve_prefix (lower tok) ub tm) as [p|] eqn:Er; [|discriminate].
  destruct (truthy (strip (default [] (tm !! p)))) eqn:Es; simpl; [|discriminate].
  intros [= <-]. simpl.
  apply PREFIX_RE_match_inv in Em as (_ & Htok & _).
  split; [|split; [|split; apply strip_idem]].
  - destruct (tm !! p) as [sec|]; [now exists sec|]. discriminate.
  - apply resolve_prefix_key in Er as [-> | ->];
      [now apply lower_lower_alnum|reflexivity].
Qed.

Lemma entry_well_formed_witness :
  (exists sec, DEFAULT_TAG_MAP !! py "misc" = Some sec
               /\ py "Miscellany" = strip sec)
  /\ forallb is_lower_alnum (py "misc") = true
  /\ strip (py "something") = py "something"
  /\ strip (py "Miscellany") = py "Miscellany".
Proof.
  apply (entry_well_formed (Some (py "XYZ:  something ")) (py "map_to_misc")
           DEFAULT_TAG_MAP (Entry (py "misc") (py "Miscellany") (py "something"))).
  vm_compute. reflexivity.
Defined.

End TaggedLineFacts.

(** ** Binds and frames *)

Module FrameFacts.
Import PyStr Effects Auth Delivery Watch Frames.

Lemma bind_ok {A B} (m : M A) (k : A -> M B) w b w' :
  bind m k w = (Ok b, w') ->
  exists a w1, m w = (Ok a, w1) /\ k a w1 = (Ok b, w').
Proof.
  unfold bind. destruct (m w) as [[a|e] w1]; [|discriminate].
  intros H. now exists a, w1.
Qed.

Lemma file_frame_refl (path : str) (fs : gmap str str) : file_frame path fs fs.
Proof. split; auto. Qed.

Lemma file_frame_trans (path : str) (fs1 fs2 fs3 : gmap str str) :
  file_frame path fs1 fs2 -> file_frame path fs2 fs3 -> file_frame path fs1 fs3.
Proof.
  intros [H1 K1] [H2 K2]. split.
  - intros p Hp. now rewrite H2, H1.
  - auto.
Qed.

Lemma file_frame_insert (path content : str) (fs : gmap str str) :
  file_frame path fs (<[path := content]> fs).
Proof.
  split.
  - intros p Hp. now rewrite lookup_insert_ne.
  - intros _. rewrite lookup_insert_eq. eauto.
Qed.

Section Combinators.
Context {A B : Type}.

Lemma emits_only_mono (P Q : event -> bool) (m : M A) :
  (forall e, P e = true -> Q e = true) -> emits_only P m -> emits_only Q m.
Proof.
  intros HPQ Hm w. destruct (Hm w) as (evs & Ho & Hall). exists evs.
  split; [exact Ho|]. rewrite forallb_forall in Hall |- *. auto.
Qed.

Lemma emits_only_pure (P : event -> bool) (m : M A) :
  (forall w, snd (m w) = w) -> emits_only P m.
Proof. intros H w. exists []. now rewrite H, app_nil_r. Qed.

Lemma emits_only_bind (P : event -> bool) (m : M A) (k : A -> M B) :
  emits_only P m -> (forall a, emits_only P (k a)) -> emits_only P (bind m k).
Proof.
  intros Hm Hk w. destruct (Hm w) as (e1 & H1 & N1). unfold bind.
  destruct (m w) as [[a|e] w1]; simpl in *.
  - destruct (Hk a w1) as (e2 & H2 & N2). exists (e1 ++ e2).
    rewrite H2, H1, app_assoc, forallb_app, N1, N2. auto.
  - now exists e1.
Qed.

Lemma emits_only_try_except (P : event -> bool) (m : M A) (h : exn -> M A) :
  emits_only P m -> (forall e, emits_only P (h e)) ->
  emits_only P (try_except m h).
Proof.
  intros Hm Hh w. destruct (Hm w) as (e1 & H1 & N1). unfold try_except.
  destruct (m w) as [[a|e] w1]; simpl in *.
  - now exists e1.
  - destruct (Hh e w1) as (e2 & H2 & N2). exists (e1 ++ e2).
    rewrite H2, H1, app_assoc, forallb_app, N1, N2. auto.
Qed.

Lemma keeps_files_pure (path : str) (m : M A) :
  (forall w, files (snd (m w)) = files w) -> keeps_files path m.
Proof. intros H w. rewrite H. apply file_frame_refl. Qed.

Lemma keeps_files_bind (path : str) (m : M A) (k : A -> M B) :
  keeps_files path m -> (forall a, keeps_files path (k a)) ->
  keeps_files path (bind m k).
Proof.
  intros Hm Hk w. specialize (Hm w). unfold bind.
  destruct (m w) as [[a|e] w1]; simpl in *; [|exact Hm].
  eapply file_frame_trans; [exact Hm|apply Hk].
Qed.

Lemma keeps_files_try_except (path : str) (m : M A) (h : exn -> M A) :
  keeps_files path m -> (forall e, keeps_files path (h e)) ->
  keeps_files path (try_except m h).
Proof.
  intros Hm Hh w. specialize (Hm w). unfold try_except.
  destruct (m w) as [[a|e] w1]; simpl in *; [exact Hm|].
  eapply file_frame_trans; [exact Hm|apply Hh].
Qed.

End Combinators.

Lemma emits_only_emit (P : event -> bool) e : P e = true -> emits_only P (emit e).
Proof. intros H w. exists [e]. simpl. now rewrite H. Qed.

Lemma emits_only_write_text (P : event -> bool) (path content : str) :
  P (WriteText path content) = true -> emits_only P (write_text path content).
Proof. intros H w. exists [WriteText path content]. simpl. now rewrite H. Qed.

Lemma keeps_files_write_text (path content : str) :
  keeps_files path (write_text path content).
Proof. intros w. apply file_frame_insert. Qed.

(** Splits a computation along its binds and case distinctions. *)
Ltac frame_step :=
  match goal with
  | |- emits_only _ (bind _ _) => apply emits_only_bind; [|intros ?]
  | |- emits_only _ (try_except _ _) => apply emits_only_try_except; [|intros ?]
  | |- keeps_files _ (bind _ _) => apply keeps_files_bind; [|intros ?]
  | |- keeps_files _ (try_except _ _) => apply keeps_files_try_except; [|intros ?]
  | |- emits_only _ (if ?b then _ else _) => destruct b
  | |- keeps_files _ (if ?b then _ else _) => destruct b
  | |- emits_only _ (match ?x with _ => _ end) => destruct x
  | |- keeps_files _ (match ?x with _ => _ end) => destruct x
  end.

Ltac frame_leaf :=
  first
    [ apply emits_only_pure; intros ?; reflexivity
    | apply keeps_files_pure; intros ?; reflexivity
    | apply emits_only_emit; reflexivity
    | apply keeps_files_write_text
    | apply emits_only_write_text; reflexivity
    | apply emits_only_write_text; simpl;
      apply bool_decide_eq_true_2; reflexivity ].

Ltac frame_solve := repeat frame_step; try frame_leaf.

Lemma auth_emits ext cfg :
  emits_only (auth_event (token_file cfg)) (get_oauth_access_token ext cfg).
Proof.
  unfold get_oauth_access_token, load_cached, renew, interactive_login, print.
  frame_solve.
Qed.

Lemma auth_keeps_files ext cfg :
  keeps_files (token_file cfg) (get_oauth_access_token ext cfg).
Proof.
  unfold get_oauth_access_token, load_cached, renew, interactive_login, print.
  frame_solve.
Qed.

End FrameFacts.

(** ** More about the credential manager *)

Module AuthMore.
Import PyStr PyStrFacts Effects Auth Delivery Watch Frames FrameFacts Scenario.

(** X7. Whatever the outside world answers, [get_oauth_access_token]
    changes no file but the token file, never removes the token file, and
    adds nothing to the trace but the login notice, a refresh, the
    interactive login and writes of the token file. *)
Theorem credential_manager_frame
    (ext : external) (cfg : oauth_config) (w : world) :
  let w' := snd (get_oauth_access_token ext cfg w) in
  (forall p, p <> token_file cfg -> files w' !! p = files w !! p)
  /\ (is_Some (files w !! token_file cfg) -> is_Some (files w' !! token_file cfg))
  /\ exists evs, out w' = out w ++ evs
                 /\ forallb (auth_event (token_file cfg)) evs = true.
Proof.
  destruct (auth_keeps_files ext cfg w) as [Hother Hkeep].
  destruct (auth_emits ext cfg w) as (evs & Hout & Hall).
  simpl. split; [exact Hother|]. split; [exact Hkeep|]. now exists evs.
Qed.

(** X8. A token returned by [get_oauth_access_token] is never the empty
    string. *)
Theorem returned_token_nonempty
    (ext : external) (cfg : oauth_config) (w w' : world) (tok : str) :
  get_oauth_access_token ext cfg w = (Ok tok, w') -> tok <> [].
Proof.
  unfold get_oauth_access_token.
  destruct (negb (oauth_deps ext)); [discriminate|].
  intros H. apply bind_ok in H as (creds0 & w0 & _ & H).
  apply bind_ok in H as (creds & w1 & _ & H).
  destruct creds as [c|]; [|discriminate].
  destruct (token c) as [t|]; [|discriminate].
  destruct (truthy t) eqn:E; [|discriminate].
  injection H as <- _. now apply truthy_true.
Qed.

Lemma returned_token_nonempty_witness : py "cached-token" <> [].
Proof.
  apply (returned_token_nonempty (answers 200 (py "OK")) oauth_cfg
           (with_token (py "fresh")) (with_token (py "fresh"))).
  vm_compute. reflexivity.
Defined.

(** X9. When the interactive login is needed, the client-secret file is
    there and the login yields a credential with a token: the login notice
    is printed before the login, the credential is written to the token
    file, and its token is returned. *)
Theorem interactive_login_persists
    (ext : external) (cfg : oauth_config) (w : world)
    (secrets flow : str) (c : Credentials) (tok : str) :
  oauth_deps ext = true ->
  needs_interactive_auth ext cfg (files w) = true ->
  files w !! client_secrets_file cfg = Some secrets ->
  from_client_secrets_file ext secrets (scopes cfg) = Ok flow ->
  run_local_server ext flow = Ok c ->
  token c = Some tok ->
  tok <> [] ->
  get_oauth_access_token ext cfg w
  = (Ok tok,
     World (<[token_file cfg := to_json ext c]> (files w))
           (out w ++ [Print LogAuthStarting; RunLocalServer flow;
                      WriteText (token_file cfg) (to_json ext c)])).
Proof.
  intros Hdeps Hneed Hsec Hflow Hrun Htok Hne.
  apply truthy_true in Hne.
  unfold needs_interactive_auth in Hneed.
  unfold get_oauth_access_token, load_cached, renew, interactive_login, bind,
    read_files, lift, ret, write_text, print, emit.
  rewrite Hdeps. simpl.
  destruct (files w !! token_file cfg) as [content|].
  - destruct (from_authorized_user_file ext content (scopes cfg)) as [c0|];
      [|discriminate].
    apply andb_true_iff in Hneed as [Hv Hr]. rewrite Hv.
    apply negb_true_iff in Hr. rewrite Hr, Hsec, Hflow. simpl.
    rewrite Hrun. simpl. rewrite Htok, Hne, <- !app_assoc. reflexivity.
  - rewrite Hsec, Hflow. simpl. rewrite Hrun. simpl.
    rewrite Htok, Hne, <- !app_assoc. reflexivity.
Qed.

Lemma interactive_login_persists_witness :
  get_oauth_access_token (answers 200 (py "OK")) oauth_cfg
    (World (<[secrets_path := py "{}"]> ∅) [])
  = (Ok (py "cached-token"),
     World (<[token_path := py "fresh"]> (<[secrets_path := py "{}"]> ∅))
           [Print LogAuthStarting; RunLocalServer (py "{}");
            WriteText token_path (py "fresh")]).
Proof.
  etransitivity;
    [apply (interactive_login_persists (answers 200 (py "OK")) oauth_cfg
              (World (<[secrets_path := py "{}"]> ∅) []) (py "{}") (py "{}")
              fresh (py "cached-token"));
       solve [vm_compute; reflexivity | discriminate]
    |vm_compute; reflexivity].
Defined.

Lemma cached_token_hit
    (ext : external) (cfg : oauth_config) (w : world)
    (content : str) (c : Credentials) (tok : str) :
  oauth_deps ext = true ->
  files w !! token_file cfg = Some content ->
  from_authorized_user_file ext content (scopes cfg) = Ok c ->
  token c = Some tok -> truthy tok = true -> expired c = false ->
  get_oauth_access_token ext cfg w = (Ok tok, w).
Proof.
  intros Hdeps Hfile Hload Htok Hne Hexp.
  unfold get_oauth_access_token, load_cached, bind, read_files, lift, ret.
  rewrite Hdeps. simpl. rewrite Hfile, Hload.
  unfold valid. rewrite Htok, Hexp. simpl. now rewrite Htok, Hne.
Qed.

(** X10. A refreshed credential is used again: after a call that refreshed
    the expired credential, the next call (when the written file loads back
    to the refreshed credential, still unexpired) returns the same token
    and does nothing else: no second refresh, no login, no write. *)
Theorem refreshed_credential_reused
    (ext ext2 : external) (cfg : oauth_config) (w : world)
    (content : str) (c c' : Credentials) (tok : str) :
  oauth_deps ext = true ->
  files w !! token_file cfg = Some content ->
  from_authorized_user_file ext content (scopes cfg) = Ok c ->
  expired c = true ->
  truthy_opt (refresh_token c) = true ->
  refresh ext c = Ok c' ->
  token c' = Some tok -> tok <> [] -> expired c' = false ->
  oauth_deps ext2 = true ->
  from_authorized_user_file ext2 (to_json ext c') (scopes cfg) = Ok c' ->
  let r1 := get_oauth_access_token ext cfg w in
  fst r1 = Ok tok
  /\ out (snd r1)
     = out w ++ [Refresh c; WriteText (token_file cfg) (to_json ext c')]
  /\ get_oauth_access_token ext2 cfg (snd r1) = (Ok tok, snd r1).
Proof.
  intros Hdeps Hfile Hload Hexp Hrt Hrefresh Htok Hne Hexp' Hdeps2 Hload2 r1.
  apply truthy_true in Hne.
  assert (H1 : r1 = (Ok tok,
                     World (<[token_file cfg := to_json ext c']> (files w))
                           (out w ++ [Refresh c;
                              WriteText (token_file cfg) (to_json ext c')]))).
  { subst r1.
    unfold get_oauth_access_token, load_cached, renew, bind, read_files, lift,
      ret, write_text, emit.
    rewrite Hdeps. simpl. rewrite Hfile, Hload.
    unfold valid. rewrite Hexp.
    destruct (token c); simpl; rewrite Hrt; simpl; rewrite Hrefresh; simpl;
      rewrite Htok, Hne, <- app_assoc; reflexivity. }
  rewrite H1. simpl. repeat split.
  apply (cached_token_hit ext2 cfg _ (to_json ext c') c' tok); auto.
  simpl. apply lookup_insert_eq.
Qed.

Lemma refreshed_credential_reused_witness :
  let r1 := get_oauth_access_token (answers 200 (py "OK")) oauth_cfg
              (with_token (py "stale")) in
  fst r1 = Ok (py "new-token")
  /\ out (snd r1)
     = out (with_token (py "stale"))
       ++ [Refresh stale;
           WriteText (token_file oauth_cfg) (to_json (answers 200 (py "OK")) renewed)]
  /\ get_oauth_access_token refresh_fails oauth_cfg (snd r1)
     = (Ok (py "new-token"), snd r1).
Proof.
  apply (refreshed_credential_reused (answers 200 (py "OK")) refresh_fails
           oauth_cfg (with_token (py "stale")) (py "stale") stale renewed
           (py "new-token"));
    solve [vm_compute; reflexivity | discriminate].
Defined.

(** X11. A token file that exists but cannot be loaded makes
    [get_oauth_access_token] raise the loading error; nothing is written
    and no login is started, even when the client-secret file is there. *)
Theorem unreadable_cache_propagates
    (ext : external) (cfg : oauth_config) (w : world) (content : str) (e : exn) :
  oauth_deps ext = true ->
  files w !! token_file cfg = Some content ->
  from_authorized_user_file ext content (scopes cfg) = Raise e ->
  get_oauth_access_token ext cfg w = (Raise e, w).
Proof.
  intros Hdeps Hfile Hload.
  unfold get_oauth_access_token, load_cached, bind, read_files, lift.
  rewrite Hdeps. simpl. now rewrite Hfile, Hload.
Qed.

Lemma unreadable_cache_propagates_witness :
  get_oauth_access_token (answers 200 (py "OK")) oauth_cfg
    (with_token (py "garbage"))
  = (Raise (OtherException (py "ValueError") (py "bad token file")),
     with_token (py "garbage")).
Proof.
  apply (unreadable_cache_propagates (answers 200 (py "OK")) oauth_cfg
           (with_token (py "garbage")) (py "garbage"));
    vm_compute; reflexivity.
Defined.

End AuthMore.

(** ** More about delivery and the loop *)

Module LoopMore.
Import PyStr PyStrFacts Classifier Effects Auth Delivery Watch Frames
  FrameFacts TraceFacts DeliveryFacts WatchFacts Scenario.

Lemma post_payload_plain ext (url : str) payload cfg w :
  auth_mode cfg <> py "oauth_user" ->
  post_payload ext url payload cfg w = send ext (request_for url payload None) w.
Proof.
  intros Hmode. unfold post_payload, prepare_headers, bind, ret.
  rewrite bool_decide_eq_false_2 by exact Hmode. reflexivity.
Qed.





(** X14. A new clipboard content that does not classify is recorded as
    seen and nothing else happens but the pause: no request, no credential
    activity, no output, in every auth mode. *)
Theorem no_match_no_request
    (cfg : config) (t : tick) (last : option str) (w : world) (current : str) :
  paste t = Ok current ->
  Some current ≠ last ->
  parse_clipboard_text (Some current) (unknown_prefix_behavior cfg)
    (tag_map cfg) = None ->
  iteration cfg t last w
  = (Ok (Some current), World (files w) (out w ++ [Classify current; Sleep])).
Proof.
  intros Hpaste Hchg Hparse.
  unfold iteration. rewrite Hpaste, bool_decide_eq_true_2 by exact Hchg.
  unfold process. rewrite Hparse.
  unfold bind, emit, ret. simpl. now rewrite <- app_assoc.
Qed.

Lemma no_match_no_request_witness :
  iteration (cfg (py "oauth_user")) (clip "just some text" refresh_fails)
    None no_files
  = (Ok (Some (py "just some text")),
     World (files no_files)
       (out no_files ++ [Classify (py "just some text"); Sleep])).
Proof.
  apply (no_match_no_request (cfg (py "oauth_user"))
           (clip "just some text" refresh_fails) None no_files
           (py "just some text"));
    solve [vm_compute; reflexivity | discriminate].
Defined.

(** X15. Without [oauth_user], when the endpoint answers with a response:
    the line [sent] with the tag and the text is printed exactly when the
    response is acknowledged (status 200..299 and stripped body [OK]);
    otherwise the status and stripped body are printed.  The iteration is
    the classification, the request, that one line and the pause. *)
Theorem sent_line_when_acknowledged
    (cfg : config) (t : tick) (last : option str) (w : world)
    (current : str) (e : entry) (resp : Response) :
  auth_mode cfg <> py "oauth_user" ->
  paste t = Ok current ->
  Some current ≠ last ->
  parse_clipboard_text (Some current) (unknown_prefix_behavior cfg)
    (tag_map cfg) = Some e ->
  let req := request_for (web_app_url cfg)
               (MkPayload (type_ e) (section e) (text e) (who cfg)) None in
  urlopen (ext t) req = Ok resp ->
  iteration cfg t last w
  = (Ok (Some current),
     World (files w)
       (out w ++ [Classify current; UrlOpen req;
                  Print (if acknowledged (status resp) (strip (body resp))
                         then LogSent (type_ e) (text e)
                         else LogServerResponse (status resp)
                                (strip (body resp)));
                  Sleep])).
Proof.
  intros Hmode Hpaste Hchg Hparse req Hresp.
  unfold iteration. rewrite Hpaste, bool_decide_eq_true_2 by exact Hchg.
  unfold process. rewrite Hparse.
  unfold bind at 1 2 3 4. unfold emit at 1. simpl.
  rewrite post_payload_plain by exact Hmode. fold req.
  unfold send, bind, emit. simpl. rewrite Hresp.
  destruct (acknowledged (status resp) (strip (body resp)));
    unfold print, emit, bind, ret; simpl; rewrite <- !app_assoc; reflexivity.
Qed.

Lemma sent_line_when_acknowledged_witness :
  iteration (cfg (py "none"))
    (clip "todo: Buy milk" (answers 200 (py "OK" ++ [LF]))) None no_files
  = (Ok (Some (py "todo: Buy milk")),
     World ∅
       [Classify (py "todo: Buy milk");
        UrlOpen (request_for URL todo_payload None);
        Print (LogSent (py "todo") (py "Buy milk"));
        Sleep]).
Proof.
  etransitivity;
    [apply (sent_line_when_acknowledged (cfg (py "none"))
              (clip "todo: Buy milk" (answers 200 (py "OK" ++ [LF]))) None
              no_files (py "todo: Buy milk")
              (Entry (py "todo") (py "TODO") (py "Buy milk"))
              (MkResponse 200 (py "OK" ++ [LF])));
       solve [vm_compute; reflexivity | discriminate]
    |vm_compute; reflexivity].
Defined.

End LoopMore.

(** ** More about the whole run *)

Module RunMore.
Import PyStr PyStrFacts Classifier Effects Auth Delivery Watch Frames
  FrameFacts TraceFacts DeliveryFacts WatchFacts LoopMore Scenario.




Lemma process_keeps_files cfg ext (current : str) :
  keeps_files (token_file (oauth cfg)) (process cfg ext current).
Proof.
  unfold process, post_payload, prepare_headers, send, get_oauth_access_token,
    load_cached, renew, interactive_login, print.
  frame_solve.
Qed.


Lemma iteration_keeps_files cfg t last :
  keeps_files (token_file (oauth cfg)) (iteration cfg t last).
Proof.
  unfold iteration, print. frame_solve. apply process_keeps_files.
Qed.

Lemma watch_keeps_files cfg ticks last :
  keeps_files (token_file (oauth cfg)) (watch cfg ticks last).
Proof.
  revert last. induction ticks as [|t ticks IH]; intros last; simpl.
  - apply keeps_files_pure. reflexivity.
  - apply keeps_files_bind; [apply iteration_keeps_files|]. intros l. apply IH.
Qed.

Lemma iteration_plain_files cfg t last w :
  auth_mode cfg <> py "oauth_user" ->
  files (snd (iteration cfg t last w)) = files w.
Proof.
  intros Hmode. unfold iteration. destruct (paste t) as [c|exc];
    [|reflexivity].
  unfold bind at 1 2. destruct (bool_decide (Some c ≠ last)); [|reflexivity].
  unfold process.
  destruct (parse_clipboard_text (Some c) (unknown_prefix_behavior cfg)
              (tag_map cfg)) as [e|]; [|reflexivity].
  unfold bind. unfold emit at 1. simpl.
  rewrite post_payload_plain by exact Hmode.
  match goal with |- context [send ?x ?q ?w0] =>
    destruct (send_result x q w0) as (b & line & -> & _)
  end.
  destruct b; reflexivity.
Qed.




(** X18. However the polls go, the loop changes no file but the token
    file and never removes it; without [oauth_user] it changes no file at
    all. *)
Theorem watch_file_frame
    (cfg : config) (ticks : list tick) (last : option str) (w : world) :
  let w' := snd (watch cfg ticks last w) in
  (forall p, p <> token_file (oauth cfg) -> files w' !! p = files w !! p)
  /\ (is_Some (files w !! token_file (oauth cfg)) ->
      is_Some (files w' !! token_file (oauth cfg)))
  /\ (auth_mode cfg <> py "oauth_user" -> files w' = files w).
Proof.
  destruct (watch_keeps_files cfg ticks last w) as [Hother Hkeep].
  simpl. split; [exact Hother|]. split; [exact Hkeep|].
  intros Hmode. clear Hother Hkeep. revert last w.
  induction ticks as [|t ticks IH]; intros last w; [reflexivity|].
  destruct (iteration_result cfg t last w) as (w1 & evs1 & Hit & _).
  pose proof (iteration_plain_files cfg t last w Hmode) as Hf.
  simpl watch. unfold bind. rewrite Hit in Hf |- *. simpl in Hf.
  now rewrite IH, Hf.
Qed.

End RunMore.

(** ** The configuration loader *)

Module ConfigFacts.
Import PyStr PyStrFacts StripFacts Classifier Effects Auth Delivery Watch
  Shapes TaggedLineFacts Config Scenario ConfigScenario.

(** What a successful [validate] says about each field. *)
Lemma validate_inv (b : builtins) (path : str) (items : list (str * json))
    (cfg : config) (pi : float b) :
  validate b path items = Ok (cfg, pi) ->
  let ub := str_lower b (strip (py_str b
              (get_or items (py "unknown_prefix_behavior") (JStr (py "map_to_misc"))))) in
  let am := str_lower b (strip (py_str b
              (get_or items (py "auth_mode") (JStr (py "none"))))) in
  web_app_url cfg = strip (py_str b (get_or items (py "web_app_url") (JStr [])))
  /\ web_app_url cfg <> []
  /\ (who cfg = strip (py_str b (get_or items (py "who") (JStr (py "LB"))))
      \/ who cfg = py "LB")
  /\ who cfg <> []
  /\ unknown_prefix_behavior cfg = ub
  /\ (ub = py "map_to_misc" \/ ub = py "ignore")
  /\ auth_mode cfg = am
  /\ (am = py "none" \/ am = py "oauth_user")
  /\ (exists l, scopes (oauth cfg) = clean_scopes b l)
  /\ scopes (oauth cfg) <> []
  /\ tag_map cfg = build_tag_map b (get_or items (py "tag_map") (JDict [])).
Proof.
  intros H ub am. unfold validate in H.
  destruct (truthy (strip (py_str b (get_or items (py "web_app_url") (JStr [])))))
    eqn:Eurl; simpl in H; [|discriminate].
  destruct (match dict_get items (py "poll_interval") with
            | Some v => py_float b v
            | None => Ok (float_half b)
            end) as [p|]; simpl in H; [|discriminate].
  fold ub in H. fold am in H.
  destruct (bool_decide (ub = py "map_to_misc") || bool_decide (ub = py "ignore"))
    eqn:Eub; simpl in H; [|discriminate].
  destruct (bool_decide (am = py "none") || bool_decide (am = py "oauth_user"))
    eqn:Eam; simpl in H; [|discriminate].
  destruct (get_or _ (py "scopes") DEFAULT_SCOPES) as [| | | | |[|s l]|];
    try discriminate.
  destruct (clean_scopes b (s :: l)) as [|s0 l0] eqn:Esc; [discriminate|].
  destruct (resolve_path_ b (parent b path) _) as [secrets|]; simpl in H;
    [|discriminate].
  destruct (resolve_path_ b (parent b path) _) as [tokenp|]; simpl in H;
    [|discriminate].
  injection H as <- <-. simpl.
  apply truthy_true in Eurl.
  apply orb_true_iff in Eub, Eam.
  rewrite !bool_decide_eq_true in Eub, Eam.
  split; [reflexivity|]. split; [exact Eurl|].
  destruct (truthy (strip (py_str b (get_or items (py "who") (JStr (py "LB"))))))
    eqn:Ewho.
  - apply truthy_true in Ewho.
    split; [now left|]. split; [exact Ewho|].
    split; [reflexivity|]. split; [exact Eub|].
    split; [reflexivity|]. split; [exact Eam|].
    split; [now exists (s :: l)|]. split; [discriminate|reflexivity].
  - split; [now right|]. split; [discriminate|].
    split; [reflexivity|]. split; [exact Eub|].
    split; [reflexivity|]. split; [exact Eam|].
    split; [now exists (s :: l)|]. split; [discriminate|reflexivity].
Qed.

Lemma load_config_inv (b : builtins) (fs : gmap str str) (path : str)
    (cfg : config) (pi : float b) :
  load_config b fs path = Ok (cfg, pi) ->
  exists content items,
    fs !! path = Some content
    /\ json_load b content = Ok (JDict items)
    /\ validate b path items = Ok (cfg, pi).
Proof.
  unfold load_config. destruct (fs !! path) as [content|]; [|discriminate].
  destruct (json_load b content) as [v|] eqn:Ej; simpl; [|discriminate].
  destruct v; try discriminate. intros H. now exists content, items.
Qed.

(** X19. A configuration that [load_config] returns has its two modes in
    the closed sets: the unknown-tag policy is [map_to_misc] or [ignore],
    the auth mode is [none] or [oauth_user]. *)
Theorem loaded_modes_closed (b : builtins) (fs : gmap str str) (path : str)
    (cfg : config) (pi : float b) :
  load_config b fs path = Ok (cfg, pi) ->
  (unknown_prefix_behavior cfg = py "map_to_misc"
   \/ unknown_prefix_behavior cfg = py "ignore")
  /\ (auth_mode cfg = py "none" \/ auth_mode cfg = py "oauth_user").
Proof.
  intros H. apply load_config_inv in H as (content & items & _ & _ & H).
  apply validate_inv in H as (_ & _ & _ & _ & -> & Hub & -> & Ham & _).
  auto.
Qed.


Lemma clean_scopes_clean (b : builtins) (l : list json) :
  Forall (fun s => s <> [] /\ strip s = s) (clean_scopes b l).
Proof.
  unfold clean_scopes. induction l as [|v l IH]; [constructor|].
  rewrite fmap_cons. simpl.
  destruct (truthy (strip (py_str b v))) eqn:E; [|exact IH].
  constructor; [|exact IH]. split; [now apply truthy_true|apply strip_idem].
Qed.

(** X21. A configuration that [load_config] returns has at least one OAuth
    scope, and every scope is non-empty and without surrounding
    whitespace. *)
Theorem loaded_scopes_clean (b : builtins) (fs : gmap str str) (path : str)
    (cfg : config) (pi : float b) :
  load_config b fs path = Ok (cfg, pi) ->
  scopes (oauth cfg) <> []
  /\ Forall (fun s => s <> [] /\ strip s = s) (scopes (oauth cfg)).
Proof.
  intros H. apply load_config_inv in H as (content & items & _ & _ & H).
  apply validate_inv in H as (_ & _ & _ & _ & _ & _ & _ & _ & [l Hl] & Hne & _).
  split; [exact Hne|]. rewrite Hl. apply clean_scopes_clean.
Qed.

Lemma add_tag_other (b : builtins) (tm : gmap str str) (item : str * json)
    (k : str) :
  str_lower b (strip (fst item)) <> k \/ k = [] ->
  add_tag b tm item !! k = tm !! k.
Proof.
  unfold add_tag. intros H.
  destruct (truthy (str_lower b (strip item.1))) eqn:E; [|reflexivity].
  apply lookup_insert_ne. destruct H as [H | ->]; [exact H|].
  now apply truthy_true.
Qed.

Lemma foldl_add_tag_other (b : builtins) (items : list (str * json))
    (tm : gmap str str) (k : str) :
  Forall (fun it => str_lower b (strip (fst it)) <> k \/ k = []) items ->
  foldl (add_tag b) tm items !! k = tm !! k.
Proof.
  revert tm. induction items as [|it items IH]; intros tm H; [reflexivity|].
  inversion H as [|? ? Hit Hrest]; subst. simpl.
  rewrite IH by exact Hrest. now apply add_tag_other.
Qed.

Lemma foldl_add_tag_some (b : builtins) (items : list (str * json))
    (tm : gmap str str) (k : str) :
  is_Some (tm !! k) -> is_Some (foldl (add_tag b) tm items !! k).
Proof.
  revert tm. induction items as [|it items IH]; intros tm H; [exact H|].
  simpl. apply IH. unfold add_tag.
  destruct (truthy (str_lower b (strip it.1))); [|exact H].
  destruct (decide (str_lower b (strip it.1) = k)) as [<- | Hne].
  - rewrite lookup_insert_eq. eauto.
  - now rewrite lookup_insert_ne.
Qed.

(** X22. The tag map of a loaded configuration always has the built-in
    tags [todo], [fu] and [misc], whatever the file configures, and never
    has the empty string as a tag. *)
Theorem loaded_tag_map_defaults (b : builtins) (fs : gmap str str) (path : str)
    (cfg : config) (pi : float b) :
  load_config b fs path = Ok (cfg, pi) ->
  is_Some (tag_map cfg !! py "todo")
  /\ is_Some (tag_map cfg !! py "fu")
  /\ is_Some (tag_map cfg !! py "misc")
  /\ tag_map cfg !! [] = None.
Proof.
  intros H. apply load_config_inv in H as (content & items & _ & _ & H).
  apply validate_inv in H as (_ & _ & _ & _ & _ & _ & _ & _ & _ & _ & ->).
  unfold build_tag_map.
  destruct (get_or items (py "tag_map") (JDict [])) as [| | | | | |titems];
    try (repeat split; solve [eexists; reflexivity | reflexivity]).
  repeat split; try (apply foldl_add_tag_some; eexists; reflexivity).
  rewrite foldl_add_tag_other; [reflexivity|].
  apply Forall_forall. auto.
Qed.

Lemma tag_map_unmentioned (b : builtins) (v : json) (k : str) :
  match v with
  | JDict titems => Forall (fun it => str_lower b (strip (fst it)) <> k) titems
  | _ => True
  end ->
  build_tag_map b v !! k = DEFAULT_TAG_MAP !! k.
Proof.
  unfold build_tag_map. destruct v as [| | | | | |titems]; try reflexivity.
  intros H. apply foldl_add_tag_other.
  eapply Forall_impl; [exact H|]. auto.
Qed.

(** X23. A tag that no key of the configured tag map normalises to
    (strip, then lower-case) keeps its built-in section, or stays absent;
    this covers a missing tag map and one that is not an object. *)
Theorem tag_unmentioned_keeps_default
    (b : builtins) (fs : gmap str str) (path content : str)
    (items : list (str * json)) (cfg : config) (pi : float b) (k : str) :
  fs !! path = Some content ->
  json_load b content = Ok (JDict items) ->
  load_config b fs path = Ok (cfg, pi) ->
  match get_or items (py "tag_map") (JDict []) with
  | JDict titems => Forall (fun it => str_lower b (strip (fst it)) <> k) titems
  | _ => True
  end ->
  tag_map cfg !! k = DEFAULT_TAG_MAP !! k.
Proof.
  intros Hfile Hjson H Hno. unfold load_config in H.
  rewrite Hfile, Hjson in H. simpl in H.
  apply validate_inv in H as (_ & _ & _ & _ & _ & _ & _ & _ & _ & _ & ->).
  now apply tag_map_unmentioned.
Qed.

(** X24. Keys of the configured tag map are normalised (strip, then
    lower-case) and the last item for a normalised key wins: its value, as
    a string, is the section of that tag (also for a built-in tag). *)
Theorem tag_override_last_wins
    (b : builtins) (fs : gmap str str) (path content : str)
    (items titems pre post : list (str * json)) (cfg : config) (pi : float b)
    (key : str) (v : json) :
  fs !! path = Some content ->
  json_load b content = Ok (JDict items) ->
  load_config b fs path = Ok (cfg, pi) ->
  dict_get items (py "tag_map") = Some (JDict titems) ->
  titems = pre ++ (key, v) :: post ->
  str_lower b (strip key) <> [] ->
  Forall (fun it => str_lower b (strip (fst it)) <> str_lower b (strip key)) post ->
  tag_map cfg !! str_lower b (strip key) = Some (py_str b v).
Proof.
  intros Hfile Hjson H Hget -> Hk Hpost. unfold load_config in H.
  rewrite Hfile, Hjson in H. simpl in H.
  apply validate_inv in H as (_ & _ & _ & _ & _ & _ & _ & _ & _ & _ & ->).
  unfold get_or. rewrite Hget. simpl.
  rewrite foldl_app. simpl.
  rewrite foldl_add_tag_other
    by (eapply Forall_impl; [exact Hpost|]; auto).
  unfold add_tag. simpl. apply truthy_true in Hk. rewrite Hk.
  apply lookup_insert_eq.
Qed.

(** X25. When the configuration file does not exist, [main] prints one
    fatal line that names the path and returns 1; no poll happens and no
    file is touched. *)
Theorem missing_config_is_fatal
    (b : builtins) (path : str) (ticks : list tick) (w : world) :
  files w !! path = None ->
  main_at b path ticks w
  = (Ok (Some 1%Z),
     World (files w)
       (out w ++ [Print (LogFatal (FileNotFoundError
                    (MSG_NO_CONFIG_1 ++ path ++ MSG_NO_CONFIG_2)))])).
Proof.
  intros H. unfold main_at, load_config. rewrite H. reflexivity.
Qed.

(** X26. A configuration object whose [web_app_url] is missing or blank is
    rejected: [main] prints the fatal line about the required field and
    returns 1 before any poll. *)
Theorem missing_web_app_url_is_fatal
    (b : builtins) (path content : str) (items : list (str * json))
    (ticks : list tick) (w : world) :
  files w !! path = Some content ->
  json_load b content = Ok (JDict items) ->
  blank (py_str b (get_or items (py "web_app_url") (JStr []))) = true ->
  load_config b (files w) path = Raise (ValueError MSG_NO_URL)
  /\ main_at b path ticks w
     = (Ok (Some 1%Z),
        World (files w) (out w ++ [Print (LogFatal (ValueError MSG_NO_URL))])).
Proof.
  intros Hfile Hjson Hblank.
  assert (Hl : load_config b (files w) path = Raise (ValueError MSG_NO_URL)).
  { unfold load_config. rewrite Hfile, Hjson. simpl. unfold validate.
    now rewrite strip_truthy, Hblank. }
  split; [exact Hl|]. unfold main_at. now rewrite Hl.
Qed.

(** X27. With a loaded configuration whose policy is [map_to_misc] and
    whose file does not configure [misc]: a tagged line with an unknown tag
    and a non-blank remainder is classified as [misc] in the section
    [Miscellany], with the trimmed remainder as text. *)
Theorem unknown_tag_default_section
    (b : builtins) (fs : gmap str str) (path content : str)
    (items : list (str * json)) (cfg : config) (pi : float b)
    (w t g tail : str) :
  fs !! path = Some content ->
  json_load b content = Ok (JDict items) ->
  load_config b fs path = Ok (cfg, pi) ->
  match get_or items (py "tag_map") (JDict []) with
  | JDict titems =>
      Forall (fun it => str_lower b (strip (fst it)) <> py "misc") titems
  | _ => True
  end ->
  unknown_prefix_behavior cfg = py "map_to_misc" ->
  blank w = true -> t <> [] -> forallb is_alnum t = true ->
  no_linebreak g = true -> ends_line tail = true -> blank g = false ->
  tag_map cfg !! lower t = None ->
  parse_clipboard_text (Some (w ++ t ++ COLON :: g ++ tail))
    (unknown_prefix_behavior cfg) (tag_map cfg)
  = Some (Entry (py "misc") (py "Miscellany") (strip g)).
Proof.
  intros Hfile Hjson H Hno Hub Hw Hne Ht Hg Htail Hb Hunknown.
  assert (Hmisc : tag_map cfg !! py "misc" = Some (py "Miscellany")).
  { unfold load_config in H. rewrite Hfile, Hjson in H. simpl in H.
    apply validate_inv in H as (_ & _ & _ & _ & _ & _ & _ & _ & _ & _ & ->).
    now rewrite tag_map_unmentioned. }
  rewrite parse_tagged by auto.
  rewrite strip_truthy, Hb. simpl.
  unfold resolve_prefix. rewrite Hunknown, Hub.
  rewrite bool_decide_eq_true_2 by reflexivity.
  rewrite Hmisc. reflexivity.
Qed.

End ConfigFacts.

Module ConfigWitnesses.
Import PyStr Classifier Effects Auth Delivery Watch Shapes Config Scenario
  ConfigScenario ConfigFacts.

Example load_sample :
  load_config simple (with_config (py "sample")) CONFIG_PATH
  = Ok (sample_config, 0%Z).
Proof. vm_compute. reflexivity. Qed.

Example load_minimal :
  load_config simple (with_config (py "minimal")) CONFIG_PATH
  = Ok (minimal_config, 0%Z).
Proof. vm_compute. reflexivity. Qed.

Lemma loaded_modes_closed_witness :
  (unknown_prefix_behavior sample_config = py "map_to_misc"
   \/ unknown_prefix_behavior sample_config = py "ignore")
  /\ (auth_mode sample_config = py "none"
      \/ auth_mode sample_config = py "oauth_user").
Proof.
  apply (loaded_modes_closed simple (with_config (py "sample")) CONFIG_PATH
           sample_config 0%Z).
  vm_compute. reflexivity.
Defined.


Lemma loaded_scopes_clean_witness :
  scopes (oauth sample_config) <> []
  /\ Forall (fun s => s <> [] /\ strip s = s) (scopes (oauth sample_config)).
Proof.
  apply (loaded_scopes_clean simple (with_config (py "sample")) CONFIG_PATH
           sample_config 0%Z).
  vm_compute. reflexivity.
Defined.

Lemma loaded_tag_map_defaults_witness :
  is_Some (tag_map sample_config !! py "todo")
  /\ is_Some (tag_map sample_config !! py "fu")
  /\ is_Some (tag_map sample_config !! py "misc")
  /\ tag_map sample_config !! [] = None.
Proof.
  apply (loaded_tag_map_defaults simple (with_config (py "sample")) CONFIG_PATH
           sample_config 0%Z).
  vm_compute. reflexivity.
Defined.

Lemma tag_unmentioned_keeps_default_witness :
  tag_map sample_config !! py "fu" = DEFAULT_TAG_MAP !! py "fu".
Proof.
  apply (tag_unmentioned_keeps_default simple (with_config (py "sample"))
           CONFIG_PATH (py "sample") sample_items sample_config 0%Z (py "fu"));
    try (vm_compute; reflexivity).
  simpl. repeat constructor; vm_compute; discriminate.
Defined.

Lemma tag_override_last_wins_witness :
  tag_map sample_config !! str_lower simple (strip (py "buy"))
  = Some (py_str simple (JStr (py "Groceries"))).
Proof.
  apply (tag_override_last_wins simple (with_config (py "sample")) CONFIG_PATH
           (py "sample") sample_items sample_tags
           [(py " Buy ", JStr (py "Shopping")); (py "TODO", JStr (py "Tasks"));
            (py "  ", JStr (py "dropped"))]
           [] sample_config 0%Z (py "buy") (JStr (py "Groceries")));
    solve [vm_compute; reflexivity | vm_compute; discriminate | constructor].
Defined.

Lemma missing_config_is_fatal_witness :
  main_at simple CONFIG_PATH [clip "todo: a" (answers 200 (py "OK"))] no_files
  = (Ok (Some 1%Z),
     World (files no_files)
       (out no_files
        ++ [Print (LogFatal (FileNotFoundError
              (MSG_NO_CONFIG_1 ++ CONFIG_PATH ++ MSG_NO_CONFIG_2)))])).
Proof.
  apply (missing_config_is_fatal simple CONFIG_PATH
           [clip "todo: a" (answers 200 (py "OK"))] no_files).
  reflexivity.
Defined.

Lemma missing_web_app_url_is_fatal_witness :
  load_config simple (files (World (with_config (py "{}")) [])) CONFIG_PATH
  = Raise (ValueError MSG_NO_URL)
  /\ main_at simple CONFIG_PATH [clip "todo: a" (answers 200 (py "OK"))]
       (World (with_config (py "{}")) [])
     = (Ok (Some 1%Z),
        World (files (World (with_config (py "{}")) []))
          (out (World (with_config (py "{}")) [])
           ++ [Print (LogFatal (ValueError MSG_NO_URL))])).
Proof.
  apply (missing_web_app_url_is_fatal simple CONFIG_PATH (py "{}") []
           [clip "todo: a" (answers 200 (py "OK"))]
           (World (with_config (py "{}")) []));
    vm_compute; reflexivity.
Defined.

Lemma unknown_tag_default_section_witness :
  parse_clipboard_text (Some ([] ++ py "xyz" ++ COLON :: py " something" ++ []))
    (unknown_prefix_behavior minimal_config) (tag_map minimal_config)
  = Some (Entry (py "misc") (py "Miscellany") (strip (py " something"))).
Proof.
  apply (unknown_tag_default_section simple (with_config (py "minimal"))
           CONFIG_PATH (py "minimal") minimal minimal_config 0%Z
           [] (py "xyz") (py " something") []);
    solve [vm_compute; reflexivity | vm_compute; discriminate | exact I
          | constructor].
Defined.

End ConfigWitnesses.

